(** * redux-api-middleware: the interceptor and the action builder

    A shallow embedding of [createApiMiddleware] and [apiRequest]
    (api.js) together with the properties of the dispatch sequence, of
    the options handed to the request function and of the promise the
    interceptor returns.

    JavaScript values are an inductive type; objects are finite maps from
    property names to values.  Functions supplied by the caller (the
    request function, [next], [onSuccess], [onFailure], a response's
    [json]) are named, and an environment gives what a call of each one
    does: it returns a value or throws.  A run of the interceptor yields
    the list of observable events (dispatched actions and calls of
    caller-supplied functions, in order) and its completion. *)

From stdpp Require Import gmap strings list fin_maps pretty.

Set Warnings "-register-all".

(** ** Values *)

Inductive value : Type :=
| VUndef
| VNull
| VBool (b : bool)
| VNum (n : Z)
| VNaN
| VStr (s : string)
| VObj (fields : gmap string value)
| VFun (f : string)
| VError (name message : string)
| VFulfilled (v : value)
| VRejected (e : value)
| VPending.

(** [VNum] covers the integral numbers, [VNaN] the one falsy number that
    is not zero.  [VFun f] is the function called [f] in the environment.
    [VError] is an error object.  The last three constructors are native
    promises, given by what they settle to: fulfilled with a value,
    rejected with a reason, or never settled. *)

(** How a promise ends up. *)
Inductive settlement : Type :=
| Fulfilled (v : value)
| Rejected (e : value)
| Pending.

(** The promise resolution procedure: resolving with a promise adopts its
    state, resolving with anything else fulfils. *)
Fixpoint resolve (v : value) : settlement :=
  match v with
  | VFulfilled x => resolve x
  | VRejected e => Rejected e
  | VPending => Pending
  | _ => Fulfilled v
  end.

Definition promiseValue (s : settlement) : value :=
  match s with
  | Fulfilled v => VFulfilled v
  | Rejected e => VRejected e
  | Pending => VPending
  end.

Definition isPromise (v : value) : bool :=
  match v with
  | VFulfilled _ | VRejected _ | VPending => true
  | _ => false
  end.

(** ToBoolean, as applied by [if (x)] and [!x]. *)
Definition toBoolean (v : value) : bool :=
  match v with
  | VUndef | VNull | VNaN => false
  | VBool b => b
  | VNum n => negb (n =? 0)%Z
  | VStr s => negb (String.eqb s "")
  | _ => true
  end.

Definition nullish (v : value) : bool :=
  match v with
  | VUndef | VNull => true
  | _ => false
  end.

(** The own enumerable properties of a value, as [Object.assign] and a
    rest pattern copy them: the fields of an object, the indexed
    characters of a string, nothing for any other value. *)
Definition stringProps (s : string) : gmap string value :=
  list_to_map
    (imap (fun i c => (pretty i, VStr (String c EmptyString)))
          (String.list_ascii_of_string s)).

Definition ownProps (v : value) : gmap string value :=
  match v with
  | VObj fields => fields
  | VStr s => stringProps s
  | _ => ∅
  end.

(** The value a successful read [v.k] gives: undefined when [v] has no
    such property. *)
Definition prop (v : value) (k : string) : value :=
  default VUndef (ownProps v !! k).

(** [Object.assign(target, ...sources)]: later sources win. *)
Definition Object_assign (target : gmap string value) (sources : list value)
  : gmap string value :=
  foldl (fun acc src => ownProps src ∪ acc) target sources.

(** ** Events and the run monad *)

Inductive event : Type :=
| Dispatch (action : value)
| Invoke (f : value) (args : list value).

Inductive completion (A : Type) : Type :=
| Normal (a : A)
| Throw (e : value).
Arguments Normal {A} a.
Arguments Throw {A} e.

Definition M (A : Type) : Type := list event * completion A.

Definition ret {A} (a : A) : M A := ([], Normal a).
Definition throw {A} (e : value) : M A := ([], Throw e).
Definition emit (ev : event) : M unit := ([ev], Normal tt).

Definition bind {A B} (m : M A) (k : A -> M B) : M B :=
  match m with
  | (tr, Normal a) => let '(tr', r) := k a in (tr ++ tr', r)
  | (tr, Throw e) => (tr, Throw e)
  end.

Declare Scope run_scope.
Delimit Scope run_scope with run.
Notation "x <- m ;; k" := (bind m (fun x => k))
  (at level 100, m at next level, right associativity) : run_scope.
Notation "m ;;; k" := (bind m (fun _ => k))
  (at level 100, right associativity) : run_scope.
Open Scope run_scope.

(** The actions handed to [dispatch] during a run, in order. *)
Definition dispatched (tr : list event) : list value :=
  omap (fun ev => match ev with Dispatch a => Some a | Invoke _ _ => None end) tr.

(** The calls of caller-supplied functions during a run, in order. *)
Definition invoked (tr : list event) : list (value * list value) :=
  omap (fun ev => match ev with Invoke f args => Some (f, args) | Dispatch _ => None end) tr.

(** ** The program *)

Section Api.

(** What a call of the function named [f] does, given [this] and the
    arguments. *)
Variable fenv : string -> value -> list value -> completion value.

(** A call [f(...args)] with a receiver; calling what is not a function
    is a TypeError. *)
Definition TypeError (message : string) : value := VError "TypeError" message.

Definition callMethod (f this : value) (args : list value) : M value :=
  match f with
  | VFun name => ([Invoke f args], fenv name this args)
  | _ => throw (TypeError "not a function")
  end.

Definition call (f : value) (args : list value) : M value :=
  callMethod f VUndef args.

(** [dispatch(action)]: the capability of the host store, which is not
    part of the program; a call records the action and returns. *)
Definition dispatch (action : value) : M unit := emit (Dispatch action).

(** A property read [v.k], for the names this program reads (none of
    which is defined on a prototype): reading from undefined or null
    throws, a missing property reads as undefined. *)
Definition getProp (v : value) (k : string) : M value :=
  if nullish v then throw (TypeError "cannot read properties of undefined or null")
  else ret (prop v k).

(** Destructuring needs something that is not undefined or null. *)
Definition requireObjectCoercible (v : value) : M unit :=
  if nullish v then throw (TypeError "cannot destructure undefined or null")
  else ret tt.

(** [p.then(onFulfilled, onRejected)] on a native promise: the handler
    for the way [p] settled runs, and what it returns (or throws)
    settles the new promise; without a handler the settlement passes
    through. *)
Definition settle (c : completion value) : settlement :=
  match c with
  | Normal v => resolve v
  | Throw e => Rejected e
  end.

Definition runHandler (h : value -> M value) (v : value) : M settlement :=
  let '(tr, c) := h v in (tr, Normal (settle c)).

Definition then_ (p : settlement)
           (onFulfilled onRejected : option (value -> M value)) : M settlement :=
  match p with
  | Fulfilled v =>
      match onFulfilled with
      | Some h => runHandler h v
      | None => ret p
      end
  | Rejected e =>
      match onRejected with
      | Some h => runHandler h e
      | None => ret p
      end
  | Pending => ret Pending
  end.

(** [p.finally(onFinally)]: the callback runs once [p] has settled; the
    settlement of [p] is kept unless the callback throws or returns a
    promise that rejects or never settles. *)
Definition finally_ (p : settlement) (onFinally : M value) : M settlement :=
  match p with
  | Pending => ret Pending
  | _ =>
      let '(tr, c) := onFinally in
      (tr, Normal match settle c with
                  | Fulfilled _ => p
                  | other => other
                  end)
  end.

(** The method [then] of what the request function returned: a native
    promise has it, undefined and null throw on the read, anything else
    has no such method (a thenable of the caller's own making is not
    modelled). *)
Definition promiseState (p : value) : M settlement :=
  if nullish p then throw (TypeError "cannot read properties of undefined or null")
  else if isPromise p then ret (resolve p)
  else throw (TypeError "then is not a function").

Definition isString (str : value) : bool :=
  match str with VStr _ => true | _ => false end.

Definition isFunction (func : value) : bool :=
  match func with VFun _ => true | _ => false end.

Definition logError {A} (message : string) : M A :=
  throw (VError "Error" ("redux-api-middleware: " +:+ message)).

Definition defaults : gmap string value :=
  <["actionTypes" :=
      VObj (<["start" := VStr "API_REQUEST_START"]>
           (<["end" := VStr "API_REQUEST_END"]>
           (<["failure" := VStr "API_REQUEST_FAILURE"]> ∅)))]>
  (<["requestDefaults" := VObj ∅]> ∅).

(** What the closure returned by [createApiMiddleware] captures. *)
Record middleware : Type := Middleware {
  mw_request : value;
  mw_options : value;
  mw_opts : gmap string value
}.

Definition createApiMiddleware (request options : value) : M middleware :=
  let options := match options with VUndef => VObj ∅ | _ => options end in
  (if negb (toBoolean request)
   then logError "Missing a request object as the first argument. Try passing `fetch` or `axios`"
   else ret tt) ;;;
  let opts := Object_assign ∅ [VObj defaults; options] in
  ret (Middleware request options opts).

(** [opts.actionTypes.<label>] *)
Definition actionType (mw : middleware) (label : string) : M value :=
  actionTypes <- getProp (VObj (mw_opts mw)) "actionTypes" ;;
  getProp actionTypes label.

(** The rest pattern [{type, url, onSuccess, onFailure, ...restConfig}]. *)
Definition restConfigOf (payload : value) : gmap string value :=
  delete "onFailure" (delete "onSuccess" (delete "url" (delete "type" (ownProps payload)))).

(** [res => isFunction(res.json) ? res.json() : res] *)
Definition normalize (res : value) : M value :=
  json <- getProp res "json" ;;
  if isFunction json then callMethod json res [] else ret res.

(** The fulfilment handler of the second [then]. *)
Definition onResolved (onSuccess : value) (res : value) : M value :=
  (if isFunction onSuccess
   then a <- call onSuccess [res] ;; dispatch a
   else ret tt) ;;;
  ret res.

(** The rejection handler of the second [then]. *)
Definition onRejected (mw : middleware) (type onFailure : value) (error : value) : M value :=
  (if toBoolean type
   then
     label <- actionType mw "failure" ;;
     dispatch (VObj (<["type" := label]> (<["payload" := error]> (<["error" := VBool true]> ∅))))
   else ret tt) ;;;
  (if isFunction onFailure
   then a <- call onFailure [error] ;; dispatch a
   else ret tt) ;;;
  ret VUndef.

(** The callback of [finally]. *)
Definition onFinally (mw : middleware) (type : value) : M value :=
  (if toBoolean type
   then
     label <- actionType mw "end" ;;
     dispatch (VObj (<["type" := label]> (<["payload" := type]> ∅)))
   else ret tt) ;;;
  ret VUndef.

(** [Object.assign({}, options.requestDefaults, restConfig)] *)
Definition requestOptionsOf (requestDefaults : value) (restConfig : gmap string value)
  : gmap string value :=
  Object_assign ∅ [requestDefaults; VObj restConfig].

(** [request(url, requestOptions).then(res => ...)]: the request and the
    normalisation of its response. *)
Definition send (mw : middleware) (url requestOptions : value) : M settlement :=
  p <- call (mw_request mw) [url; requestOptions] ;;
  st <- promiseState p ;;
  then_ st (Some normalize) None.

(** The body of the interceptor once the payload is destructured (from
    [if (type)] to the end of the promise chain). *)
Definition handleRequest (mw : middleware)
           (type url onSuccess onFailure : value) (restConfig : gmap string value)
  : M value :=
  (if toBoolean type
   then
     label <- actionType mw "start" ;;
     dispatch (VObj (<["type" := label]> (<["payload" := type]> ∅)))
   else ret tt) ;;;
  requestDefaults <- getProp (mw_options mw) "requestDefaults" ;;
  let requestOptions := requestOptionsOf requestDefaults restConfig in
  outcome <- send mw url (VObj requestOptions) ;;
  settled <- then_ outcome (Some (onResolved onSuccess))
                           (Some (onRejected mw type onFailure)) ;;
  final <- finally_ settled (onFinally mw type) ;;
  ret (promiseValue final).

(** The interceptor [action => ...] of the middleware, given [next]. *)
Definition apiMiddleware (mw : middleware) (next : value) (action : value) : M value :=
  api <- getProp action "API" ;;
  if negb (toBoolean api) then call next [action]
  else
    payload <- getProp api "payload" ;;
    requireObjectCoercible payload ;;;
    type <- getProp payload "type" ;;
    url <- getProp payload "url" ;;
    onSuccess <- getProp payload "onSuccess" ;;
    onFailure <- getProp payload "onFailure" ;;
    handleRequest mw type url onSuccess onFailure (restConfigOf payload).

(** [apiRequest(url, {type, ...rest} = {})] *)
Definition apiRequest (url options : value) : M value :=
  let options := match options with VUndef => VObj ∅ | _ => options end in
  requireObjectCoercible options ;;;
  type <- getProp options "type" ;;
  let rest := delete "type" (ownProps options) in
  (if negb (isString url)
   then logError "apiRequest requires a string as the first argument"
   else ret tt) ;;;
  ret (VObj (<["API" :=
               VObj (<["payload" :=
                       VObj (rest ∪ <["url" := url]> (<["type" := type]> ∅))]> ∅)]> ∅)).

End Api.

(** ** Vocabulary of the properties *)

(** The payload of a Tagged Action: [action.API] is truthy and
    [action.API.payload] can be destructured. *)
Definition taggedPayload (action : value) : option value :=
  if nullish action then None
  else if toBoolean (prop action "API")
       then let payload := prop (prop action "API") "payload" in
            if nullish payload then None else Some payload
       else None.

(** A configuration the interceptor can read: [options] is not null and
    [actionTypes], when given, is not undefined or null. *)
Definition wellFormedConfig (options : value) : bool :=
  match options with
  | VNull => false
  | _ => match ownProps options !! "actionTypes" with
         | Some actionTypes => negb (nullish actionTypes)
         | None => true
         end
  end.

(** [opts.actionTypes.<name>] as a value. *)
Definition label (mw : middleware) (name : string) : value :=
  prop (prop (VObj (mw_opts mw)) "actionTypes") name.

(** The lifecycle actions. *)
Definition startAction (mw : middleware) (type : value) : value :=
  VObj (<["type" := label mw "start"]> (<["payload" := type]> ∅)).

Definition endAction (mw : middleware) (type : value) : value :=
  VObj (<["type" := label mw "end"]> (<["payload" := type]> ∅)).

Definition failureAction (mw : middleware) (error : value) : value :=
  VObj (<["type" := label mw "failure"]>
       (<["payload" := error]> (<["error" := VBool true]> ∅))).

(** The extra fields of a payload and the options the request function
    receives for it. *)
Definition mergedOptions (mw : middleware) (payload : value) : gmap string value :=
  requestOptionsOf (prop (mw_options mw) "requestDefaults") (restConfigOf payload).

Section Vocabulary.

Variable fenv : string -> value -> list value -> completion value.

(** The request of a payload and the normalisation of its response. *)
Definition outcome (mw : middleware) (payload : value) : M settlement :=
  send fenv mw (prop payload "url") (VObj (mergedOptions mw payload)).

(** The events of a continuation [f] applied to [x]: nothing unless [f] is
    callable; its call, and the dispatch of what it returned. *)
Definition continuationEvents (f x : value) : list event :=
  match f with
  | VFun name =>
      Invoke f [x] :: match fenv name VUndef [x] with
                      | Normal a => [Dispatch a]
                      | Throw _ => []
                      end
  | _ => []
  end.

(** The action a continuation hands to [dispatch]: none unless it is
    callable and returns. *)
Definition continuationAction (f x : value) : list value :=
  match f with
  | VFun name => match fenv name VUndef [x] with
                 | Normal a => [a]
                 | Throw _ => []
                 end
  | _ => []
  end.

(** What a callable continuation throws, if it throws. *)
Definition continuationThrows (f x : value) : option value :=
  match f with
  | VFun name => match fenv name VUndef [x] with
                 | Normal _ => None
                 | Throw e => Some e
                 end
  | _ => None
  end.

End Vocabulary.

(** The lifecycle dispatches, present when [type] is truthy. *)
Definition whenTyped (type : value) (a : value) : list event :=
  if toBoolean type then [Dispatch a] else [].

(** What the probe [res.json] throws when [res] is undefined or null. *)
Definition probeError : value :=
  TypeError "cannot read properties of undefined or null".

(** ** The mocks of the repository's test suite *)

Module Mocks.

(** [jest.fn()] mocks: the request function resolves or rejects with
    ["some response"], the continuations return an action, a fetch-like
    request resolves with a wrapper whose [json] resolves with
    ["some json"].  Beside the mocks of the suite: a request that
    resolves with null, the continuation [x => ({type: "OK", payload: x})],
    and functions that throw ["boom"] (any other name). *)
Definition mocks (f : string) (this : value) (args : list value) : completion value :=
  if String.eqb f "resolves" then Normal (VFulfilled (VStr "some response"))
  else if String.eqb f "rejects" then Normal (VRejected (VStr "some response"))
  else if String.eqb f "onSuccess" then Normal (VObj {["type" := VStr "SUCCESS"]})
  else if String.eqb f "onFailure" then Normal (VObj {["type" := VStr "FAILURE"]})
  else if String.eqb f "fetch" then Normal (VFulfilled (VObj {["json" := VFun "json"]}))
  else if String.eqb f "json" then Normal (VFulfilled (VStr "some json"))
  else if String.eqb f "next" then Normal (default VUndef (head args))
  else if String.eqb f "resolvesNull" then Normal (VFulfilled VNull)
  else if String.eqb f "ok"
       then Normal (VObj (<["type" := VStr "OK"]> (<["payload" := default VUndef (head args)]> ∅)))
  else Throw (VStr "boom").

(** [createStore(request, opts).dispatch(apiRequest(url, options))] *)
Definition dispatchRequest (request opts url options : value) : M value :=
  mw <- createApiMiddleware request opts ;;
  action <- apiRequest url options ;;
  apiMiddleware mocks mw (VFun "next") action.

Definition obj (l : list (string * value)) : value := VObj (list_to_map l).

(** The middleware [createApiMiddleware(request)] yields without options,
    and an action with a given payload. *)
Definition created (request : value) : middleware :=
  Middleware request (VObj ∅) (Object_assign ∅ [VObj defaults; VObj ∅]).

Definition tagged (payload : value) : value :=
  obj [("API", obj [("payload", payload)])].

End Mocks.

(** ** Further vocabulary *)

(** The payload [apiRequest] builds: [{type, url, ...rest}]. *)
Definition builtPayload (url options : value) : gmap string value :=
  delete "type" (ownProps options) ∪ <["url" := url]> (<["type" := prop options "type"]> ∅).

(** ** Further scenarios *)

Module Scenarios.

(** The mocks, and beside them: a request that never settles, one that
    returns a string instead of a promise, and a fetch-like request whose
    wrapper's [json] rejects. *)
Definition edgeMocks (f : string) (this : value) (args : list value) : completion value :=
  if String.eqb f "pending" then Normal VPending
  else if String.eqb f "plain" then Normal (VStr "not a promise")
  else if String.eqb f "fetchBad"
       then Normal (VFulfilled (VObj {["json" := VFun "jsonRejects"]}))
  else if String.eqb f "jsonRejects" then Normal (VRejected (VStr "bad json"))
  else Mocks.mocks f this args.

End Scenarios.

(** ** Laws of the run monad *)

Lemma bind_ret {A B} (a : A) (k : A -> M B) : bind (ret a) k = k a.
Proof. unfold bind, ret. destruct (k a). reflexivity. Qed.

Lemma bind_throw {A B} (e : value) (k : A -> M B) : bind (throw e) k = throw e.
Proof. reflexivity. Qed.

Lemma bind_emit {B} (ev : event) (k : unit -> M B) :
  bind (emit ev) k = (ev :: fst (k tt), snd (k tt)).
Proof. unfold bind, emit. destruct (k tt). reflexivity. Qed.

Lemma bind_events {A B} (tr : list event) (a : A) (k : A -> M B) :
  bind (tr, Normal a) k = (tr ++ fst (k a), snd (k a)).
Proof. unfold bind. destruct (k a). reflexivity. Qed.

Lemma bind_assoc {A B C} (m : M A) (k : A -> M B) (h : B -> M C) :
  bind (bind m k) h = bind m (fun a => bind (k a) h).
Proof.
  destruct m as [tr [a|e]]; [|reflexivity].
  unfold bind at 2 3. destruct (k a) as [tr1 [b|e]]; simpl.
  - destruct (h b). by rewrite app_assoc.
  - reflexivity.
Qed.

Lemma bind_ext {A B} (m : M A) (k k' : A -> M B) :
  (forall a, k a = k' a) -> bind m k = bind m k'.
Proof. intros Hk. destruct m as [tr [a|e]]; [|reflexivity]. unfold bind. by rewrite Hk. Qed.

Lemma dispatched_app (tr1 tr2 : list event) :
  dispatched (tr1 ++ tr2) = dispatched tr1 ++ dispatched tr2.
Proof. apply omap_app. Qed.

Lemma invoked_app (tr1 tr2 : list event) :
  invoked (tr1 ++ tr2) = invoked tr1 ++ invoked tr2.
Proof. apply omap_app. Qed.

(** ** Reading the configuration *)

Lemma getProp_prop (v : value) (k : string) :
  nullish v = false -> getProp v k = ret (prop v k).
Proof. intros H. unfold getProp. by rewrite H. Qed.

Lemma created_fields (request options : value) (mw : middleware) :
  createApiMiddleware request options = ret mw ->
  toBoolean request = true
  /\ mw_request mw = request
  /\ mw_options mw = match options with VUndef => VObj ∅ | _ => options end
  /\ mw_opts mw = Object_assign ∅ [VObj defaults; match options with VUndef => VObj ∅ | _ => options end].
Proof.
  unfold createApiMiddleware. destruct (toBoolean request); simpl.
  - intros [= <-]. done.
  - discriminate.
Qed.

Lemma created_requestDefaults (request options : value) (mw : middleware) :
  createApiMiddleware request options = ret mw ->
  prop (mw_options mw) "requestDefaults" = prop options "requestDefaults".
Proof.
  intros (_ & _ & -> & _)%created_fields. by destruct options.
Qed.

Lemma created_readable (request options : value) (mw : middleware) :
  createApiMiddleware request options = ret mw ->
  wellFormedConfig options = true ->
  nullish (mw_options mw) = false
  /\ nullish (prop (VObj (mw_opts mw)) "actionTypes") = false.
Proof.
  intros (_ & _ & Ho & Hopts)%created_fields Hwf. rewrite Ho. split.
  - by destruct options.
  - unfold prop. rewrite Hopts. simpl.
    rewrite lookup_union, (right_id_L ∅ (∪)).
    assert (ownProps (match options with VUndef => VObj ∅ | _ => options end) !! "actionTypes"
            = ownProps options !! "actionTypes") as -> by by destruct options.
    unfold wellFormedConfig in Hwf.
    destruct (ownProps options !! "actionTypes") as [at_|] eqn:E.
    + destruct options; try discriminate; simpl;
        by destruct at_.
    + reflexivity.
Qed.

Lemma actionType_label (mw : middleware) (name : string) :
  nullish (prop (VObj (mw_opts mw)) "actionTypes") = false ->
  actionType mw name = ret (label mw name).
Proof.
  intros H. unfold actionType. rewrite getProp_prop by reflexivity.
  rewrite bind_ret. by apply getProp_prop.
Qed.

(** ** Runs of the interceptor *)

Section Runs.
Variable fenv : string -> value -> list value -> completion value.

Lemma apiMiddleware_tagged (mw : middleware) (next action payload : value) :
  taggedPayload action = Some payload ->
  apiMiddleware fenv mw next action
  = handleRequest fenv mw (prop payload "type") (prop payload "url")
      (prop payload "onSuccess") (prop payload "onFailure") (restConfigOf payload).
Proof.
  unfold taggedPayload, apiMiddleware.
  destruct (nullish action) eqn:Ha; [discriminate|].
  rewrite (getProp_prop _ _ Ha), bind_ret.
  destruct (toBoolean (prop action "API")) eqn:Hapi; [|discriminate]. simpl.
  assert (nullish (prop action "API") = false) as Hn
      by (by destruct (prop action "API")).
  rewrite (getProp_prop _ _ Hn), bind_ret.
  destruct (nullish (prop (prop action "API") "payload")) eqn:Hp; [discriminate|].
  intros [= <-]. unfold requireObjectCoercible. rewrite Hp, bind_ret.
  by rewrite !(getProp_prop _ _ Hp), !bind_ret.
Qed.

Lemma apiMiddleware_untagged (mw : middleware) (next action : value) :
  nullish action = false ->
  toBoolean (prop action "API") = false ->
  apiMiddleware fenv mw next action = call fenv next [action].
Proof.
  intros Ha Hapi. unfold apiMiddleware.
  by rewrite (getProp_prop _ _ Ha), bind_ret, Hapi.
Qed.

(** The synchronous prefix: the start action, then the request. *)
Lemma handleRequest_start (mw : middleware) (type url onSuccess onFailure : value)
      (restConfig : gmap string value) :
  nullish (mw_options mw) = false ->
  nullish (prop (VObj (mw_opts mw)) "actionTypes") = false ->
  handleRequest fenv mw type url onSuccess onFailure restConfig
  = bind (whenTyped type (startAction mw type), Normal tt) (fun _ =>
      outcome <- send fenv mw url
                   (VObj (requestOptionsOf (prop (mw_options mw) "requestDefaults") restConfig)) ;;
      settled <- then_ outcome (Some (onResolved fenv onSuccess))
                               (Some (onRejected fenv mw type onFailure)) ;;
      final <- finally_ settled (onFinally mw type) ;;
      ret (promiseValue final)).
Proof.
  intros Ho Hat. unfold handleRequest, whenTyped.
  destruct (toBoolean type).
  - rewrite (actionType_label _ _ Hat), bind_ret.
    apply bind_ext. intros _. by rewrite (getProp_prop _ _ Ho), bind_ret.
  - apply bind_ext. intros _. by rewrite (getProp_prop _ _ Ho), bind_ret.
Qed.

(** The handlers of the chain. *)
Lemma onResolved_run (onSuccess res : value) :
  onResolved fenv onSuccess res
  = (continuationEvents fenv onSuccess res,
     match continuationThrows fenv onSuccess res with
     | Some e => Throw e
     | None => Normal res
     end).
Proof.
  unfold onResolved, continuationEvents, continuationThrows.
  destruct onSuccess; try reflexivity.
  simpl. destruct (fenv f VUndef [res]); reflexivity.
Qed.

Lemma onRejected_run (mw : middleware) (type onFailure error : value) :
  nullish (prop (VObj (mw_opts mw)) "actionTypes") = false ->
  onRejected fenv mw type onFailure error
  = (whenTyped type (failureAction mw error) ++ continuationEvents fenv onFailure error,
     match continuationThrows fenv onFailure error with
     | Some e => Throw e
     | None => Normal VUndef
     end).
Proof.
  intros Hat. unfold onRejected, whenTyped, continuationEvents, continuationThrows.
  destruct (toBoolean type).
  - rewrite (actionType_label _ _ Hat), bind_ret.
    destruct onFailure; try reflexivity.
    simpl. destruct (fenv f VUndef [error]); reflexivity.
  - destruct onFailure; try reflexivity.
    simpl. destruct (fenv f VUndef [error]); reflexivity.
Qed.

Lemma onFinally_run (mw : middleware) (type : value) :
  nullish (prop (VObj (mw_opts mw)) "actionTypes") = false ->
  onFinally mw type = (whenTyped type (endAction mw type), Normal VUndef).
Proof.
  intros Hat. unfold onFinally, whenTyped.
  destruct (toBoolean type); [|reflexivity].
  by rewrite (actionType_label _ _ Hat), bind_ret.
Qed.

(** Promises settle with values that are not promises. *)
Lemma resolve_fulfilled (v r : value) : resolve v = Fulfilled r -> isPromise r = false.
Proof.
  induction v; simpl; try (intros [= <-]; reflexivity); try discriminate.
  assumption.
Qed.

Lemma resolve_value (r : value) : isPromise r = false -> resolve r = Fulfilled r.
Proof. by destruct r. Qed.

Lemma send_fulfilled (mw : middleware) (url o : value) (ts : list event) (r : value) :
  send fenv mw url o = (ts, Normal (Fulfilled r)) -> isPromise r = false.
Proof.
  unfold send, call, callMethod.
  destruct (mw_request mw); try discriminate.
  destruct (fenv f VUndef [url; o]) as [p|e]; [|discriminate].
  rewrite bind_events. simpl. unfold promiseState.
  destruct (nullish p); [discriminate|].
  destruct (isPromise p); [|discriminate].
  rewrite bind_ret. destruct (resolve p) as [res| |]; simpl; try discriminate.
  unfold runHandler. destruct (normalize fenv res) as [tr [v|e]]; simpl.
  - intros [= _ H]. by eapply resolve_fulfilled.
  - discriminate.
Qed.

Lemma send_dispatches_nothing (mw : middleware) (url o : value) :
  dispatched (fst (send fenv mw url o)) = [].
Proof.
  unfold send, call, callMethod.
  destruct (mw_request mw); try reflexivity.
  destruct (fenv f VUndef [url; o]) as [p|e]; [|reflexivity].
  rewrite bind_events. simpl. unfold promiseState.
  destruct (nullish p); [reflexivity|].
  destruct (isPromise p); [|reflexivity].
  rewrite bind_ret. destruct (resolve p) as [res| |]; simpl; try reflexivity.
  unfold runHandler, normalize, getProp.
  destruct (nullish res); [reflexivity|]. rewrite bind_ret.
  unfold callMethod. destruct (prop res "json"); reflexivity.
Qed.

Lemma send_invokes_request (mw : middleware) (url o : value) :
  isFunction (mw_request mw) = true ->
  exists tr, fst (send fenv mw url o) = Invoke (mw_request mw) [url; o] :: tr.
Proof.
  unfold send, call, callMethod.
  destruct (mw_request mw); try discriminate. intros _.
  destruct (fenv f VUndef [url; o]) as [p|e]; [|simpl; eauto].
  rewrite bind_events. simpl. eauto.
Qed.

(** The four ways a request ends. *)
Lemma handleRequest_rejected (mw : middleware) (type url onSuccess onFailure : value)
      (restConfig : gmap string value) (ts : list event) (e : value) :
  nullish (mw_options mw) = false ->
  nullish (prop (VObj (mw_opts mw)) "actionTypes") = false ->
  send fenv mw url (VObj (requestOptionsOf (prop (mw_options mw) "requestDefaults") restConfig))
  = (ts, Normal (Rejected e)) ->
  handleRequest fenv mw type url onSuccess onFailure restConfig
  = (whenTyped type (startAction mw type) ++ ts
       ++ (whenTyped type (failureAction mw e) ++ continuationEvents fenv onFailure e)
       ++ whenTyped type (endAction mw type),
     Normal match continuationThrows fenv onFailure e with
            | Some x => VRejected x
            | None => VFulfilled VUndef
            end).
Proof.
  intros Ho Hat Hsend.
  rewrite (handleRequest_start _ _ _ _ _ _ Ho Hat), bind_events, Hsend, bind_events.
  simpl then_. unfold runHandler. rewrite (onRejected_run _ _ _ _ Hat).
  rewrite bind_events.
  destruct (continuationThrows fenv onFailure e) as [x|]; simpl settle;
    unfold finally_; rewrite (onFinally_run _ _ Hat); simpl; by rewrite app_nil_r.
Qed.

Lemma handleRequest_fulfilled (mw : middleware) (type url onSuccess onFailure : value)
      (restConfig : gmap string value) (ts : list event) (r : value) :
  nullish (mw_options mw) = false ->
  nullish (prop (VObj (mw_opts mw)) "actionTypes") = false ->
  send fenv mw url (VObj (requestOptionsOf (prop (mw_options mw) "requestDefaults") restConfig))
  = (ts, Normal (Fulfilled r)) ->
  handleRequest fenv mw type url onSuccess onFailure restConfig
  = (whenTyped type (startAction mw type) ++ ts
       ++ continuationEvents fenv onSuccess r
       ++ whenTyped type (endAction mw type),
     Normal match continuationThrows fenv onSuccess r with
            | Some x => VRejected x
            | None => VFulfilled r
            end).
Proof.
  intros Ho Hat Hsend. pose proof (send_fulfilled _ _ _ _ _ Hsend) as Hr.
  rewrite (handleRequest_start _ _ _ _ _ _ Ho Hat), bind_events, Hsend, bind_events.
  simpl then_. unfold runHandler. rewrite onResolved_run.
  rewrite bind_events.
  destruct (continuationThrows fenv onSuccess r) as [x|]; simpl settle;
    [|rewrite (resolve_value _ Hr)];
    unfold finally_; rewrite (onFinally_run _ _ Hat); simpl; by rewrite app_nil_r.
Qed.

Lemma handleRequest_pending (mw : middleware) (type url onSuccess onFailure : value)
      (restConfig : gmap string value) (ts : list event) :
  nullish (mw_options mw) = false ->
  nullish (prop (VObj (mw_opts mw)) "actionTypes") = false ->
  send fenv mw url (VObj (requestOptionsOf (prop (mw_options mw) "requestDefaults") restConfig))
  = (ts, Normal Pending) ->
  handleRequest fenv mw type url onSuccess onFailure restConfig
  = (whenTyped type (startAction mw type) ++ ts, Normal VPending).
Proof.
  intros Ho Hat Hsend.
  rewrite (handleRequest_start _ _ _ _ _ _ Ho Hat), bind_events, Hsend.
  simpl. by rewrite !app_nil_r.
Qed.

Lemma handleRequest_throws (mw : middleware) (type url onSuccess onFailure : value)
      (restConfig : gmap string value) (ts : list event) (e : value) :
  nullish (mw_options mw) = false ->
  nullish (prop (VObj (mw_opts mw)) "actionTypes") = false ->
  send fenv mw url (VObj (requestOptionsOf (prop (mw_options mw) "requestDefaults") restConfig))
  = (ts, Throw e) ->
  handleRequest fenv mw type url onSuccess onFailure restConfig
  = (whenTyped type (startAction mw type) ++ ts, Throw e).
Proof.
  intros Ho Hat Hsend.
  by rewrite (handleRequest_start _ _ _ _ _ _ Ho Hat), bind_events, Hsend.
Qed.

End Runs.


(** ** Helper facts on events and options *)

Lemma bind_prefix {A B} (m : M A) (k : A -> M B) :
  exists tr, fst (bind m k) = fst m ++ tr.
Proof.
  destruct m as [tr [a|e]]; simpl.
  - destruct (k a) as [tr' r]. by exists tr'.
  - exists []. by rewrite app_nil_r.
Qed.

Lemma dispatched_continuation
  (fenv : string -> value -> list value -> completion value) (f x : value) :
  dispatched (continuationEvents fenv f x) = continuationAction fenv f x.
Proof.
  unfold continuationEvents, continuationAction. destruct f; try reflexivity.
  simpl. by destruct (fenv f VUndef [x]).
Qed.

Lemma dispatched_whenTyped (type a : value) :
  toBoolean type = true -> dispatched (whenTyped type a) = [a].
Proof. intros H. unfold whenTyped. by rewrite H. Qed.

Lemma restConfigOf_lookup (payload : value) (k : string) :
  restConfigOf payload !! k
  = if bool_decide (k ∈ ["type"; "url"; "onSuccess"; "onFailure"])
    then None else ownProps payload !! k.
Proof.
  unfold restConfigOf. rewrite !lookup_delete.
  case_bool_decide as Hk.
  - set_unfold. destruct Hk as [->|[->|[->|[->|[]]]]]; reflexivity.
  - repeat case_decide; subst; try reflexivity; exfalso; apply Hk; set_solver.
Qed.

Lemma mergedOptions_lookup (mw : middleware) (payload : value) (k : string) :
  mergedOptions mw payload !! k
  = match restConfigOf payload !! k with
    | Some v => Some v
    | None => ownProps (prop (mw_options mw) "requestDefaults") !! k
    end.
Proof.
  unfold mergedOptions, requestOptionsOf, Object_assign. simpl.
  rewrite !lookup_union, lookup_empty.
  destruct (restConfigOf payload !! k), (ownProps _ !! k); reflexivity.
Qed.

Lemma send_resolved
  (fenv : string -> value -> list value -> completion value)
  (mw : middleware) (url o : value) (rq : string) (p res : value) :
  mw_request mw = VFun rq ->
  fenv rq VUndef [url; o] = Normal p ->
  isPromise p = true ->
  resolve p = Fulfilled res ->
  send fenv mw url o
  = (Invoke (VFun rq) [url; o] :: fst (normalize fenv res),
     Normal (settle (snd (normalize fenv res)))).
Proof.
  intros Hrq Hcall Hp Hres. unfold send, call, callMethod.
  rewrite Hrq, Hcall, bind_events. unfold promiseState.
  assert (nullish p = false) as -> by (by destruct p).
  rewrite Hp, bind_ret, Hres. simpl then_. unfold runHandler.
  by destruct (normalize fenv res).
Qed.


Lemma default_labels (request : value) (mw : middleware) (name : string) :
  createApiMiddleware request VUndef = ret mw ->
  label mw name = prop (prop (VObj defaults) "actionTypes") name.
Proof.
  intros (_ & _ & _ & Hopts)%created_fields.
  unfold label. rewrite Hopts. reflexivity.
Qed.

(** ** The repository's test suite, run on the embedding *)

Module Tests.
Import Mocks.

Example throws_if_request_missing :
  exists e, createApiMiddleware VUndef VUndef = ([], Throw e).
Proof. eexists. reflexivity. Qed.

Example ignores_other_actions :
  (mw <- createApiMiddleware (VFun "resolves") VUndef ;;
   apiMiddleware mocks mw (VFun "next") (obj [("type", VStr "FOO")]))
  = ([Invoke (VFun "next") [obj [("type", VStr "FOO")]]],
     Normal (obj [("type", VStr "FOO")])).
Proof. vm_compute. reflexivity. Qed.

Example passes_url_and_options :
  invoked (fst (dispatchRequest (VFun "resolves") VUndef (VStr "/url")
                  (obj [("option", VStr "value")])))
  = [(VFun "resolves", [VStr "/url"; obj [("option", VStr "value")]])].
Proof. vm_compute. reflexivity. Qed.

Example no_dispatch_without_type :
  dispatched (fst (dispatchRequest (VFun "resolves") VUndef (VStr "/url")
                     (obj [("option", VStr "value")])))
  = [].
Proof. vm_compute. reflexivity. Qed.

Example dispatches_onSuccess_action :
  let tr := fst (dispatchRequest (VFun "resolves") VUndef (VStr "/url")
                   (obj [("option", VStr "value"); ("onSuccess", VFun "onSuccess")])) in
  dispatched tr = [obj [("type", VStr "SUCCESS")]]
  /\ invoked tr = [(VFun "resolves", [VStr "/url"; obj [("option", VStr "value")]]);
                   (VFun "onSuccess", [VStr "some response"])].
Proof. vm_compute. split; reflexivity. Qed.

Example dispatches_onFailure_action :
  let tr := fst (dispatchRequest (VFun "rejects") VUndef (VStr "/url")
                   (obj [("option", VStr "value"); ("onFailure", VFun "onFailure")])) in
  dispatched tr = [obj [("type", VStr "FAILURE")]]
  /\ invoked tr = [(VFun "rejects", [VStr "/url"; obj [("option", VStr "value")]]);
                   (VFun "onFailure", [VStr "some response"])].
Proof. vm_compute. split; reflexivity. Qed.

Example dispatches_start_and_end :
  dispatched (fst (dispatchRequest (VFun "resolves") VUndef (VStr "/url")
                     (obj [("option", VStr "value"); ("type", VStr "SOME_ACTION")])))
  = [obj [("type", VStr "API_REQUEST_START"); ("payload", VStr "SOME_ACTION")];
     obj [("type", VStr "API_REQUEST_END"); ("payload", VStr "SOME_ACTION")]].
Proof. vm_compute. reflexivity. Qed.

Example allows_custom_actions :
  dispatched (fst (dispatchRequest (VFun "rejects")
                     (obj [("actionTypes", obj [("start", VStr "START"); ("end", VStr "END");
                                                ("failure", VStr "FAIL")])])
                     (VStr "/url")
                     (obj [("option", VStr "value"); ("type", VStr "SOME_ACTION")])))
  = [obj [("type", VStr "START"); ("payload", VStr "SOME_ACTION")];
     obj [("type", VStr "FAIL"); ("payload", VStr "some response"); ("error", VBool true)];
     obj [("type", VStr "END"); ("payload", VStr "SOME_ACTION")]].
Proof. vm_compute. reflexivity. Qed.

Example checks_for_response_json :
  let tr := fst (dispatchRequest (VFun "fetch") VUndef (VStr "/url")
                   (obj [("option", VStr "value"); ("onSuccess", VFun "onSuccess")])) in
  dispatched tr = [obj [("type", VStr "SUCCESS")]]
  /\ invoked tr = [(VFun "fetch", [VStr "/url"; obj [("option", VStr "value")]]);
                   (VFun "json", []);
                   (VFun "onSuccess", [VStr "some json"])].
Proof. vm_compute. split; reflexivity. Qed.

(** A [type] that is the empty string is falsy: the request is treated
    as one without a type. *)
Example empty_type_counts_as_absent :
  dispatched (fst (dispatchRequest (VFun "rejects") VUndef (VStr "/url")
                     (obj [("type", VStr "")])))
  = [].
Proof. vm_compute. reflexivity. Qed.

Example apiRequest_checks_string :
  exists e, apiRequest (obj []) VUndef = ([], Throw e).
Proof. eexists. vm_compute. reflexivity. Qed.

End Tests.

(** ** The middleware factory *)

Import Mocks.

(** C8. Whatever the configuration (none included), [createApiMiddleware]
    called without a request function (undefined, or any other falsy
    value) throws at once, with the library's error, and yields no
    middleware. *)
Theorem missing_request_throws (request options : value) :
  toBoolean request = false ->
  createApiMiddleware request options
  = throw (VError "Error"
      "redux-api-middleware: Missing a request object as the first argument. Try passing `fetch` or `axios`").
Proof.
  intros H. unfold createApiMiddleware. rewrite H. reflexivity.
Qed.

Lemma missing_request_throws_witness :
  createApiMiddleware VUndef (obj [("requestDefaults", obj [("opt", VStr "v")])])
  = throw (VError "Error"
      "redux-api-middleware: Missing a request object as the first argument. Try passing `fetch` or `axios`").
Proof. apply missing_request_throws. reflexivity. Defined.

(** C1. With the configuration [{actionTypes: {start: "START"}}] the
    start action carries ["START"], but the end and failure actions carry
    no label at all (their [type] is undefined) instead of the documented
    ["API_REQUEST_END"] and ["API_REQUEST_FAILURE"]: the given
    [actionTypes] object replaces the default one as a whole. *)
Theorem partial_actionTypes_lose_defaults :
  dispatched (fst (dispatchRequest (VFun "resolves")
                     (obj [("actionTypes", obj [("start", VStr "START")])])
                     (VStr "/url") (obj [("type", VStr "T")])))
  = [obj [("type", VStr "START"); ("payload", VStr "T")];
     obj [("type", VUndef); ("payload", VStr "T")]]
  /\ dispatched (fst (dispatchRequest (VFun "rejects")
                        (obj [("actionTypes", obj [("start", VStr "START")])])
                        (VStr "/url") (obj [("type", VStr "T")])))
     = [obj [("type", VStr "START"); ("payload", VStr "T")];
        obj [("type", VUndef); ("payload", VStr "some response"); ("error", VBool true)];
        obj [("type", VUndef); ("payload", VStr "T")]].
Proof. vm_compute. split; reflexivity. Qed.

(** ** The action builder *)

(** C2, as stated, fails at the empty string: it is a string, and
    [apiRequest("")] returns a Tagged Action whose [url] is [""]. *)
Lemma apiRequest_accepts_empty_url :
  apiRequest (VStr "") VUndef = ret (tagged (obj [("type", VUndef); ("url", VStr "")])).
Proof. vm_compute. reflexivity. Qed.

(** C2, amended. For every [url] that is not a string (absent or of
    another type) [apiRequest] throws at once and returns no action,
    whatever the options; unless the options are null (which cannot be
    destructured), what it throws is the library's error. *)
Theorem apiRequest_rejects_non_string (url options : value) :
  isString url = false ->
  (exists e, apiRequest url options = throw e)
  /\ (options <> VNull ->
      apiRequest url options
      = throw (VError "Error"
          "redux-api-middleware: apiRequest requires a string as the first argument")).
Proof.
  intros Hurl. unfold apiRequest, requireObjectCoercible.
  destruct (nullish _) eqn:Hn.
  - split; [eexists; reflexivity|]. intros Ho. by destruct options.
  - rewrite bind_ret, (getProp_prop _ _ Hn), bind_ret, Hurl.
    split; [eexists|intros _]; reflexivity.
Qed.

Lemma apiRequest_rejects_non_string_witness :
  apiRequest (obj []) VUndef
  = throw (VError "Error"
      "redux-api-middleware: apiRequest requires a string as the first argument").
Proof.
  apply (apiRequest_rejects_non_string (obj []) VUndef); [reflexivity|discriminate].
Defined.

(** ** The interceptor *)

(** C7. An action object without an [API] field is handed to [next], the
    interceptor returns (or throws) exactly what [next] does, and it
    dispatches nothing. *)
Theorem untagged_action_passes_through
  (fenv : string -> value -> list value -> completion value)
  (mw : middleware) (next : value) (fields : gmap string value) :
  fields !! "API" = None ->
  apiMiddleware fenv mw next (VObj fields) = call fenv next [VObj fields]
  /\ dispatched (fst (apiMiddleware fenv mw next (VObj fields))) = [].
Proof.
  intros Hapi.
  assert (apiMiddleware fenv mw next (VObj fields) = call fenv next [VObj fields]) as Hrun.
  { apply apiMiddleware_untagged; [reflexivity|]. unfold prop. simpl. by rewrite Hapi. }
  split; [exact Hrun|]. rewrite Hrun.
  unfold call, callMethod. by destruct next.
Qed.

Lemma untagged_action_passes_through_witness :
  apiMiddleware mocks (created (VFun "resolves")) (VFun "next")
    (VObj (list_to_map [("type", VStr "FOO")]))
  = call mocks (VFun "next") [VObj (list_to_map [("type", VStr "FOO")])]
  /\ dispatched (fst (apiMiddleware mocks (created (VFun "resolves")) (VFun "next")
                        (VObj (list_to_map [("type", VStr "FOO")])))) = [].
Proof.
  apply (untagged_action_passes_through mocks (created (VFun "resolves"))
           (VFun "next") (list_to_map [("type", VStr "FOO")])).
  vm_compute. reflexivity.
Defined.

(** C5. For a Tagged Action, the first thing the interceptor does after
    the start dispatch is to call the request function with the payload's
    [url] and an options object [merged] in which every field of the
    payload other than [type], [url], [onSuccess] and [onFailure] appears
    with the payload's value, and every other key has the value the
    configured [requestDefaults] give it: the payload's extra fields win
    wherever both give a key. *)
Theorem request_receives_merged_options
  (fenv : string -> value -> list value -> completion value)
  (request options : value) (mw : middleware) (next action payload : value) :
  createApiMiddleware request options = ret mw ->
  wellFormedConfig options = true ->
  isFunction request = true ->
  taggedPayload action = Some payload ->
  exists (merged : gmap string value) (tr : list event),
    fst (apiMiddleware fenv mw next action)
    = whenTyped (prop payload "type") (startAction mw (prop payload "type"))
        ++ Invoke request [prop payload "url"; VObj merged] :: tr
    /\ (forall k,
          merged !! k
          = if bool_decide (k ∈ ["type"; "url"; "onSuccess"; "onFailure"])
            then ownProps (prop options "requestDefaults") !! k
            else match ownProps payload !! k with
                 | Some v => Some v
                 | None => ownProps (prop options "requestDefaults") !! k
                 end).
Proof.
  intros Hmw Hwf Hfun Htag.
  destruct (created_readable _ _ _ Hmw Hwf) as [Ho Hat].
  destruct (created_fields _ _ _ Hmw) as (_ & Hreq & _).
  exists (mergedOptions mw payload).
  rewrite (apiMiddleware_tagged fenv _ _ _ _ Htag),
    (handleRequest_start fenv _ _ _ _ _ _ Ho Hat), bind_events.
  fold (mergedOptions mw payload).
  destruct (send_invokes_request fenv mw (prop payload "url")
              (VObj (mergedOptions mw payload))) as [tr Htr]; [by rewrite Hreq|].
  match goal with |- context [fst (bind ?m ?k)] =>
    destruct (bind_prefix m k) as [tr' Htr'] end.
  exists (tr ++ tr'). split.
  - cbv beta. rewrite Htr', Htr, Hreq. reflexivity.
  - intros k. rewrite mergedOptions_lookup, restConfigOf_lookup,
      (created_requestDefaults _ _ _ Hmw).
    by case_bool_decide.
Qed.

Lemma request_receives_merged_options_witness :
  exists merged : gmap string value,
    In (Invoke (VFun "resolves") [VStr "/url"; VObj merged])
       (fst (apiMiddleware mocks
               (Middleware (VFun "resolves")
                  (obj [("requestDefaults", obj [("opt", VStr "v"); ("k", VStr "default")])])
                  (Object_assign ∅
                     [VObj defaults;
                      obj [("requestDefaults", obj [("opt", VStr "v"); ("k", VStr "default")])]]))
               (VFun "next")
               (tagged (obj [("type", VStr "T"); ("url", VStr "/url"); ("k", VStr "override")]))))
    /\ merged !! "opt" = Some (VStr "v")
    /\ merged !! "k" = Some (VStr "override")
    /\ merged !! "type" = None.
Proof.
  destruct (request_receives_merged_options mocks (VFun "resolves")
              (obj [("requestDefaults", obj [("opt", VStr "v"); ("k", VStr "default")])])
              (Middleware (VFun "resolves")
                  (obj [("requestDefaults", obj [("opt", VStr "v"); ("k", VStr "default")])])
                  (Object_assign ∅
                     [VObj defaults;
                      obj [("requestDefaults", obj [("opt", VStr "v"); ("k", VStr "default")])]]))
              (VFun "next")
              (tagged (obj [("type", VStr "T"); ("url", VStr "/url"); ("k", VStr "override")]))
              (obj [("type", VStr "T"); ("url", VStr "/url"); ("k", VStr "override")])
              eq_refl eq_refl eq_refl eq_refl)
    as (merged & tr & Htr & Hm).
  exists merged. split; [|split; [|split]].
  - rewrite Htr. right. left. reflexivity.
  - rewrite Hm. vm_compute. reflexivity.
  - rewrite Hm. vm_compute. reflexivity.
  - rewrite Hm. vm_compute. reflexivity.
Defined.

(** C3. For a Tagged Action whose [type] is truthy (it carries a
    correlation type), the actions dispatched are, in this order: when the
    request fails (the promise of the request, or the decoding of its
    response, rejects with [e]), the start action, the failure action for
    [e], the action [onFailure] returned (if it is callable) and the end
    action; when the request succeeds with the normalised response [r],
    the start action, the action [onSuccess] returned (if it is callable)
    and the end action.  Nothing else is dispatched.  (While the request
    never settles, only the start action is.) *)
Theorem dispatch_order
  (fenv : string -> value -> list value -> completion value)
  (request options : value) (mw : middleware) (next action payload : value)
  (ts : list event) (out : settlement) :
  createApiMiddleware request options = ret mw ->
  wellFormedConfig options = true ->
  taggedPayload action = Some payload ->
  toBoolean (prop payload "type") = true ->
  outcome fenv mw payload = (ts, Normal out) ->
  dispatched (fst (apiMiddleware fenv mw next action))
  = match out with
    | Rejected e =>
        [startAction mw (prop payload "type"); failureAction mw e]
          ++ continuationAction fenv (prop payload "onFailure") e
          ++ [endAction mw (prop payload "type")]
    | Fulfilled r =>
        [startAction mw (prop payload "type")]
          ++ continuationAction fenv (prop payload "onSuccess") r
          ++ [endAction mw (prop payload "type")]
    | Pending => [startAction mw (prop payload "type")]
    end.
Proof.
  intros Hmw Hwf Htag Hty Hout.
  destruct (created_readable _ _ _ Hmw Hwf) as [Ho Hat].
  pose proof (send_dispatches_nothing fenv mw (prop payload "url")
                (VObj (mergedOptions mw payload))) as Hts.
  unfold outcome in Hout. rewrite Hout in Hts. simpl in Hts.
  rewrite (apiMiddleware_tagged fenv _ _ _ _ Htag).
  destruct out as [r|e|].
  - rewrite (handleRequest_fulfilled fenv _ _ _ _ _ _ _ _ Ho Hat Hout). simpl fst.
    rewrite !dispatched_app, Hts, dispatched_continuation,
      !(dispatched_whenTyped _ _ Hty). reflexivity.
  - rewrite (handleRequest_rejected fenv _ _ _ _ _ _ _ _ Ho Hat Hout). simpl fst.
    rewrite !dispatched_app, Hts, dispatched_continuation,
      !(dispatched_whenTyped _ _ Hty). reflexivity.
  - rewrite (handleRequest_pending fenv _ _ _ _ _ _ _ Ho Hat Hout). simpl fst.
    rewrite !dispatched_app, Hts, !(dispatched_whenTyped _ _ Hty). reflexivity.
Qed.

Lemma dispatch_order_witness :
  dispatched (fst (apiMiddleware mocks (created (VFun "rejects")) (VFun "next")
                     (tagged (obj [("type", VStr "T"); ("url", VStr "/url");
                                   ("onFailure", VFun "ok")]))))
  = [obj [("type", VStr "API_REQUEST_START"); ("payload", VStr "T")];
     obj [("type", VStr "API_REQUEST_FAILURE"); ("payload", VStr "some response");
          ("error", VBool true)];
     obj [("type", VStr "OK"); ("payload", VStr "some response")];
     obj [("type", VStr "API_REQUEST_END"); ("payload", VStr "T")]]
  /\ dispatched (fst (apiMiddleware mocks (created (VFun "resolves")) (VFun "next")
                        (tagged (obj [("type", VStr "T"); ("url", VStr "/url");
                                      ("onSuccess", VFun "ok")]))))
     = [obj [("type", VStr "API_REQUEST_START"); ("payload", VStr "T")];
        obj [("type", VStr "OK"); ("payload", VStr "some response")];
        obj [("type", VStr "API_REQUEST_END"); ("payload", VStr "T")]].
Proof.
  split.
  - rewrite (dispatch_order mocks (VFun "rejects") VUndef (created (VFun "rejects"))
               (VFun "next")
               (tagged (obj [("type", VStr "T"); ("url", VStr "/url"); ("onFailure", VFun "ok")]))
               (obj [("type", VStr "T"); ("url", VStr "/url"); ("onFailure", VFun "ok")])
               [Invoke (VFun "rejects") [VStr "/url"; VObj ∅]]
               (Rejected (VStr "some response"))
               eq_refl eq_refl eq_refl eq_refl eq_refl).
    vm_compute. reflexivity.
  - rewrite (dispatch_order mocks (VFun "resolves") VUndef (created (VFun "resolves"))
               (VFun "next")
               (tagged (obj [("type", VStr "T"); ("url", VStr "/url"); ("onSuccess", VFun "ok")]))
               (obj [("type", VStr "T"); ("url", VStr "/url"); ("onSuccess", VFun "ok")])
               [Invoke (VFun "resolves") [VStr "/url"; VObj ∅]]
               (Fulfilled (VStr "some response"))
               eq_refl eq_refl eq_refl eq_refl eq_refl).
    vm_compute. reflexivity.
Defined.

(** C9. For a Tagged Action whose [type] is absent (or falsy) and whose
    [onSuccess] and [onFailure] are not callable, the interceptor
    dispatches nothing, however the request ends. *)
Theorem untyped_request_dispatches_nothing
  (fenv : string -> value -> list value -> completion value)
  (mw : middleware) (next action payload : value) :
  taggedPayload action = Some payload ->
  toBoolean (prop payload "type") = false ->
  isFunction (prop payload "onSuccess") = false ->
  isFunction (prop payload "onFailure") = false ->
  dispatched (fst (apiMiddleware fenv mw next action)) = [].
Proof.
  intros Htag Hty HonS HonF.
  rewrite (apiMiddleware_tagged fenv _ _ _ _ Htag).
  unfold handleRequest. rewrite Hty, bind_ret.
  unfold getProp. destruct (nullish (mw_options mw)); [reflexivity|].
  rewrite bind_ret.
  pose proof (send_dispatches_nothing fenv mw (prop payload "url")
     (VObj (requestOptionsOf (prop (mw_options mw) "requestDefaults") (restConfigOf payload))))
    as Hts.
  destruct (send _ _ _ _) as [ts [out|e]]; simpl in Hts; [|exact Hts].
  rewrite bind_events. simpl fst. rewrite dispatched_app, Hts. simpl.
  assert (forall x, onResolved fenv (prop payload "onSuccess") x = ret x) as Hres.
  { intros x. unfold onResolved. by rewrite HonS. }
  assert (forall x, onRejected fenv mw (prop payload "type") (prop payload "onFailure") x
                    = ret VUndef) as Hrej.
  { intros x. unfold onRejected. by rewrite Hty, HonF. }
  assert (onFinally mw (prop payload "type") = ret VUndef) as Hfin.
  { unfold onFinally. by rewrite Hty. }
  rewrite Hfin.
  destruct out as [r|e|]; simpl; unfold runHandler; rewrite ?Hres, ?Hrej; simpl.
  - by destruct (resolve r).
  - reflexivity.
  - reflexivity.
Qed.

Lemma untyped_request_dispatches_nothing_witness :
  dispatched (fst (apiMiddleware mocks (created (VFun "resolves")) (VFun "next")
                     (tagged (obj [("url", VStr "/url"); ("option", VStr "value")])))) = []
  /\ dispatched (fst (apiMiddleware mocks (created (VFun "rejects")) (VFun "next")
                        (tagged (obj [("url", VStr "/url"); ("option", VStr "value")])))) = [].
Proof.
  split.
  - apply (untyped_request_dispatches_nothing mocks (created (VFun "resolves")) (VFun "next")
             (tagged (obj [("url", VStr "/url"); ("option", VStr "value")]))
             (obj [("url", VStr "/url"); ("option", VStr "value")]));
      vm_compute; reflexivity.
  - apply (untyped_request_dispatches_nothing mocks (created (VFun "rejects")) (VFun "next")
             (tagged (obj [("url", VStr "/url"); ("option", VStr "value")]))
             (obj [("url", VStr "/url"); ("option", VStr "value")]));
      vm_compute; reflexivity.
Defined.

(** C4, as stated, fails when a continuation throws: the request rejects,
    [onFailure] throws ["boom"], and the promise the interceptor returned
    rejects with ["boom"] instead of being fulfilled; likewise the request
    succeeds, [onSuccess] throws, and the promise rejects instead of being
    fulfilled with the response. *)
Lemma throwing_continuation_rejects :
  (outcome mocks (created (VFun "rejects"))
     (obj [("type", VStr "T"); ("url", VStr "/url"); ("onFailure", VFun "throws")])
   = ([Invoke (VFun "rejects") [VStr "/url"; VObj ∅]], Normal (Rejected (VStr "some response")))
   /\ snd (apiMiddleware mocks (created (VFun "rejects")) (VFun "next")
             (tagged (obj [("type", VStr "T"); ("url", VStr "/url");
                           ("onFailure", VFun "throws")])))
      = Normal (VRejected (VStr "boom")))
  /\ (outcome mocks (created (VFun "resolves"))
        (obj [("type", VStr "T"); ("url", VStr "/url"); ("onSuccess", VFun "throws")])
      = ([Invoke (VFun "resolves") [VStr "/url"; VObj ∅]],
         Normal (Fulfilled (VStr "some response")))
      /\ snd (apiMiddleware mocks (created (VFun "resolves")) (VFun "next")
                (tagged (obj [("type", VStr "T"); ("url", VStr "/url");
                              ("onSuccess", VFun "throws")])))
         = Normal (VRejected (VStr "boom"))).
Proof. vm_compute. repeat split; reflexivity. Qed.

(** C4, amended. For a Tagged Action whose request fails, the promise the
    interceptor returns is fulfilled with undefined, unless [onFailure] is
    callable and throws: then it rejects with what [onFailure] threw.
    When the request succeeds, the promise is fulfilled with the
    normalised response, unless [onSuccess] is callable and throws: then
    it rejects with what [onSuccess] threw.  (While the request never
    settles, neither does the promise.) *)
Theorem returned_promise
  (fenv : string -> value -> list value -> completion value)
  (request options : value) (mw : middleware) (next action payload : value)
  (ts : list event) (out : settlement) :
  createApiMiddleware request options = ret mw ->
  wellFormedConfig options = true ->
  taggedPayload action = Some payload ->
  outcome fenv mw payload = (ts, Normal out) ->
  snd (apiMiddleware fenv mw next action)
  = Normal match out with
           | Rejected e =>
               match continuationThrows fenv (prop payload "onFailure") e with
               | None => VFulfilled VUndef
               | Some x => VRejected x
               end
           | Fulfilled r =>
               match continuationThrows fenv (prop payload "onSuccess") r with
               | None => VFulfilled r
               | Some x => VRejected x
               end
           | Pending => VPending
           end.
Proof.
  intros Hmw Hwf Htag Hout.
  destruct (created_readable _ _ _ Hmw Hwf) as [Ho Hat].
  unfold outcome in Hout.
  rewrite (apiMiddleware_tagged fenv _ _ _ _ Htag).
  destruct out as [r|e|].
  - by rewrite (handleRequest_fulfilled fenv _ _ _ _ _ _ _ _ Ho Hat Hout).
  - by rewrite (handleRequest_rejected fenv _ _ _ _ _ _ _ _ Ho Hat Hout).
  - by rewrite (handleRequest_pending fenv _ _ _ _ _ _ _ Ho Hat Hout).
Qed.

Lemma returned_promise_witness :
  snd (apiMiddleware mocks (created (VFun "rejects")) (VFun "next")
         (tagged (obj [("type", VStr "T"); ("url", VStr "/url"); ("onFailure", VFun "ok")])))
  = Normal (VFulfilled VUndef)
  /\ snd (apiMiddleware mocks (created (VFun "fetch")) (VFun "next")
            (tagged (obj [("type", VStr "T"); ("url", VStr "/url"); ("onSuccess", VFun "ok")])))
     = Normal (VFulfilled (VStr "some json")).
Proof.
  split.
  - rewrite (returned_promise mocks (VFun "rejects") VUndef (created (VFun "rejects"))
               (VFun "next")
               (tagged (obj [("type", VStr "T"); ("url", VStr "/url"); ("onFailure", VFun "ok")]))
               (obj [("type", VStr "T"); ("url", VStr "/url"); ("onFailure", VFun "ok")])
               [Invoke (VFun "rejects") [VStr "/url"; VObj ∅]]
               (Rejected (VStr "some response"))
               eq_refl eq_refl eq_refl eq_refl).
    vm_compute. reflexivity.
  - rewrite (returned_promise mocks (VFun "fetch") VUndef (created (VFun "fetch"))
               (VFun "next")
               (tagged (obj [("type", VStr "T"); ("url", VStr "/url"); ("onSuccess", VFun "ok")]))
               (obj [("type", VStr "T"); ("url", VStr "/url"); ("onSuccess", VFun "ok")])
               [Invoke (VFun "fetch") [VStr "/url"; VObj ∅]; Invoke (VFun "json") []]
               (Fulfilled (VStr "some json"))
               eq_refl eq_refl eq_refl eq_refl).
    vm_compute. reflexivity.
Defined.

(** C6, as stated, fails twice.  A request that resolves with null has no
    callable [json], yet null is not used as the response: [onSuccess] is
    never called and the returned promise is fulfilled with undefined.
    And a response is not the fulfilment value of the returned promise
    when [onSuccess] throws: the promise rejects. *)
Lemma null_response_not_used :
  (invoked (fst (apiMiddleware mocks (created (VFun "resolvesNull")) (VFun "next")
                   (tagged (obj [("url", VStr "/url"); ("onSuccess", VFun "ok")]))))
   = [(VFun "resolvesNull", [VStr "/url"; VObj ∅])]
   /\ snd (apiMiddleware mocks (created (VFun "resolvesNull")) (VFun "next")
             (tagged (obj [("url", VStr "/url"); ("onSuccess", VFun "ok")])))
      = Normal (VFulfilled VUndef))
  /\ snd (apiMiddleware mocks (created (VFun "resolves")) (VFun "next")
            (tagged (obj [("url", VStr "/url"); ("onSuccess", VFun "throws")])))
     = Normal (VRejected (VStr "boom")).
Proof. vm_compute. repeat split; reflexivity. Qed.

(** C6, amended. Let the request resolve with a value [res] other than
    undefined and null.  If [res.json] is callable and its call yields a
    decoded result [d] (directly, or as the value its promise is fulfilled
    with), then [json] is called right after the request, [d] (not [res])
    is the argument of [onSuccess] when that is callable, and [d] is the
    fulfilment value of the returned promise when [onSuccess] does not
    throw.  If [res.json] is not callable, the same holds with [res]
    itself and without the call of [json]. *)
Theorem response_normalization
  (fenv : string -> value -> list value -> completion value)
  (rq : string) (options : value) (mw : middleware) (next action payload p res : value) :
  createApiMiddleware (VFun rq) options = ret mw ->
  wellFormedConfig options = true ->
  taggedPayload action = Some payload ->
  fenv rq VUndef [prop payload "url"; VObj (mergedOptions mw payload)] = Normal p ->
  isPromise p = true ->
  resolve p = Fulfilled res ->
  nullish res = false ->
  let type := prop payload "type" in
  let onSuccess := prop payload "onSuccess" in
  let requested := Invoke (VFun rq) [prop payload "url"; VObj (mergedOptions mw payload)] in
  (forall j d' d,
      prop res "json" = VFun j ->
      fenv j res [] = Normal d' ->
      resolve d' = Fulfilled d ->
      fst (apiMiddleware fenv mw next action)
      = whenTyped type (startAction mw type)
          ++ [requested; Invoke (VFun j) []]
          ++ continuationEvents fenv onSuccess d
          ++ whenTyped type (endAction mw type)
      /\ (continuationThrows fenv onSuccess d = None ->
          snd (apiMiddleware fenv mw next action) = Normal (VFulfilled d)))
  /\ (isFunction (prop res "json") = false ->
      fst (apiMiddleware fenv mw next action)
      = whenTyped type (startAction mw type)
          ++ [requested]
          ++ continuationEvents fenv onSuccess res
          ++ whenTyped type (endAction mw type)
      /\ (continuationThrows fenv onSuccess res = None ->
          snd (apiMiddleware fenv mw next action) = Normal (VFulfilled res))).
Proof.
  intros Hmw Hwf Htag Hcall Hp Hres Hnn type onSuccess requested.
  destruct (created_readable _ _ _ Hmw Hwf) as [Ho Hat].
  destruct (created_fields _ _ _ Hmw) as (_ & Hreq & _).
  pose proof (send_resolved fenv mw _ _ rq p res Hreq Hcall Hp Hres) as Hsend.
  rewrite (apiMiddleware_tagged fenv _ _ _ _ Htag).
  unfold normalize in Hsend. rewrite (getProp_prop _ _ Hnn), bind_ret in Hsend.
  split.
  - intros j d' d Hj Hjson Hd.
    rewrite Hj in Hsend. simpl in Hsend. rewrite Hjson in Hsend. simpl in Hsend.
    rewrite Hd in Hsend.
    rewrite (handleRequest_fulfilled fenv _ _ _ _ _ _ _ _ Ho Hat Hsend). simpl.
    split; [reflexivity|]. fold onSuccess. by intros ->.
  - intros Hj. rewrite Hj in Hsend. simpl in Hsend.
    rewrite (resolve_value res (resolve_fulfilled _ _ Hres)) in Hsend.
    rewrite (handleRequest_fulfilled fenv _ _ _ _ _ _ _ _ Ho Hat Hsend). simpl.
    split; [reflexivity|]. fold onSuccess. by intros ->.
Qed.

Lemma response_normalization_witness :
  (fst (apiMiddleware mocks (created (VFun "fetch")) (VFun "next")
          (tagged (obj [("url", VStr "/url"); ("onSuccess", VFun "ok")])))
   = [Invoke (VFun "fetch") [VStr "/url"; VObj ∅];
      Invoke (VFun "json") [];
      Invoke (VFun "ok") [VStr "some json"];
      Dispatch (obj [("type", VStr "OK"); ("payload", VStr "some json")])]
   /\ snd (apiMiddleware mocks (created (VFun "fetch")) (VFun "next")
             (tagged (obj [("url", VStr "/url"); ("onSuccess", VFun "ok")])))
      = Normal (VFulfilled (VStr "some json")))
  /\ (fst (apiMiddleware mocks (created (VFun "resolves")) (VFun "next")
             (tagged (obj [("url", VStr "/url"); ("onSuccess", VFun "ok")])))
      = [Invoke (VFun "resolves") [VStr "/url"; VObj ∅];
         Invoke (VFun "ok") [VStr "some response"];
         Dispatch (obj [("type", VStr "OK"); ("payload", VStr "some response")])]
      /\ snd (apiMiddleware mocks (created (VFun "resolves")) (VFun "next")
                (tagged (obj [("url", VStr "/url"); ("onSuccess", VFun "ok")])))
         = Normal (VFulfilled (VStr "some response"))).
Proof.
  split.
  - destruct (response_normalization mocks "fetch" VUndef (created (VFun "fetch"))
                (VFun "next")
                (tagged (obj [("url", VStr "/url"); ("onSuccess", VFun "ok")]))
                (obj [("url", VStr "/url"); ("onSuccess", VFun "ok")])
                (VFulfilled (obj [("json", VFun "json")])) (obj [("json", VFun "json")])
                eq_refl eq_refl eq_refl eq_refl eq_refl eq_refl eq_refl) as [Hjson _].
    destruct (Hjson "json" (VFulfilled (VStr "some json")) (VStr "some json")
                eq_refl eq_refl eq_refl) as [Htr Hsnd].
    split; [rewrite Htr; vm_compute; reflexivity | apply Hsnd; reflexivity].
  - destruct (response_normalization mocks "resolves" VUndef (created (VFun "resolves"))
                (VFun "next")
                (tagged (obj [("url", VStr "/url"); ("onSuccess", VFun "ok")]))
                (obj [("url", VStr "/url"); ("onSuccess", VFun "ok")])
                (VFulfilled (VStr "some response")) (VStr "some response")
                eq_refl eq_refl eq_refl eq_refl eq_refl eq_refl eq_refl) as [_ Hplain].
    destruct (Hplain eq_refl) as [Htr Hsnd].
    split; [rewrite Htr; vm_compute; reflexivity | apply Hsnd; reflexivity].
Defined.

(** C10, as stated, fails when [onFailure] throws: the request resolves
    with null, the failure action is dispatched and [onFailure] is called
    with the error of the probe, but it throws ["boom"] and the returned
    promise rejects with ["boom"] instead of being fulfilled with
    undefined. *)
Lemma null_response_throwing_onFailure :
  mocks "resolvesNull" VUndef [VStr "/url"; VObj ∅] = Normal (VFulfilled VNull)
  /\ invoked (fst (apiMiddleware mocks (created (VFun "resolvesNull")) (VFun "next")
                     (tagged (obj [("type", VStr "T"); ("url", VStr "/url");
                                   ("onFailure", VFun "throws")]))))
     = [(VFun "resolvesNull", [VStr "/url"; VObj ∅]); (VFun "throws", [probeError])]
  /\ snd (apiMiddleware mocks (created (VFun "resolvesNull")) (VFun "next")
            (tagged (obj [("type", VStr "T"); ("url", VStr "/url");
                          ("onFailure", VFun "throws")])))
     = Normal (VRejected (VStr "boom")).
Proof. vm_compute. repeat split; reflexivity. Qed.

(** C10, amended. When the request resolves with undefined or null, the
    probe [res.json] throws a TypeError and the request counts as failed
    with that error: after the start action and the request, the failure
    action for the error is dispatched (when [type] is truthy), then
    [onFailure], when callable, is called with the error and what it
    returns is dispatched, then the end action (when [type] is truthy);
    [onSuccess] is not called.  The returned promise is fulfilled with
    undefined, unless [onFailure] is callable and throws: then it rejects
    with what [onFailure] threw. *)
Theorem nullish_response_fails
  (fenv : string -> value -> list value -> completion value)
  (rq : string) (options : value) (mw : middleware) (next action payload p res : value) :
  createApiMiddleware (VFun rq) options = ret mw ->
  wellFormedConfig options = true ->
  taggedPayload action = Some payload ->
  fenv rq VUndef [prop payload "url"; VObj (mergedOptions mw payload)] = Normal p ->
  isPromise p = true ->
  resolve p = Fulfilled res ->
  nullish res = true ->
  let type := prop payload "type" in
  let onFailure := prop payload "onFailure" in
  let requested := Invoke (VFun rq) [prop payload "url"; VObj (mergedOptions mw payload)] in
  outcome fenv mw payload = ([requested], Normal (Rejected probeError))
  /\ fst (apiMiddleware fenv mw next action)
     = whenTyped type (startAction mw type)
         ++ [requested]
         ++ (whenTyped type (failureAction mw probeError)
               ++ continuationEvents fenv onFailure probeError)
         ++ whenTyped type (endAction mw type)
  /\ snd (apiMiddleware fenv mw next action)
     = Normal match continuationThrows fenv onFailure probeError with
              | None => VFulfilled VUndef
              | Some x => VRejected x
              end.
Proof.
  intros Hmw Hwf Htag Hcall Hp Hres Hnull type onFailure requested.
  destruct (created_readable _ _ _ Hmw Hwf) as [Ho Hat].
  destruct (created_fields _ _ _ Hmw) as (_ & Hreq & _).
  pose proof (send_resolved fenv mw _ _ rq p res Hreq Hcall Hp Hres) as Hsend.
  unfold normalize, getProp in Hsend. rewrite Hnull in Hsend. simpl in Hsend.
  split; [exact Hsend|].
  rewrite (apiMiddleware_tagged fenv _ _ _ _ Htag).
  rewrite (handleRequest_rejected fenv _ _ _ _ _ _ _ _ Ho Hat Hsend). simpl.
  split; [reflexivity|]. fold onFailure. by destruct (continuationThrows _ _ _).
Qed.

Lemma nullish_response_fails_witness :
  fst (apiMiddleware mocks (created (VFun "resolvesNull")) (VFun "next")
         (tagged (obj [("type", VStr "T"); ("url", VStr "/url");
                       ("onSuccess", VFun "onSuccess"); ("onFailure", VFun "ok")])))
  = [Dispatch (obj [("type", VStr "API_REQUEST_START"); ("payload", VStr "T")]);
     Invoke (VFun "resolvesNull") [VStr "/url"; VObj ∅];
     Dispatch (obj [("type", VStr "API_REQUEST_FAILURE"); ("payload", probeError);
                    ("error", VBool true)]);
     Invoke (VFun "ok") [probeError];
     Dispatch (obj [("type", VStr "OK"); ("payload", probeError)]);
     Dispatch (obj [("type", VStr "API_REQUEST_END"); ("payload", VStr "T")])]
  /\ snd (apiMiddleware mocks (created (VFun "resolvesNull")) (VFun "next")
            (tagged (obj [("type", VStr "T"); ("url", VStr "/url");
                          ("onSuccess", VFun "onSuccess"); ("onFailure", VFun "ok")])))
     = Normal (VFulfilled VUndef).
Proof.
  destruct (nullish_response_fails mocks "resolvesNull" VUndef
              (created (VFun "resolvesNull")) (VFun "next")
              (tagged (obj [("type", VStr "T"); ("url", VStr "/url");
                            ("onSuccess", VFun "onSuccess"); ("onFailure", VFun "ok")]))
              (obj [("type", VStr "T"); ("url", VStr "/url");
                    ("onSuccess", VFun "onSuccess"); ("onFailure", VFun "ok")])
              (VFulfilled VNull) VNull
              eq_refl eq_refl eq_refl eq_refl eq_refl eq_refl eq_refl) as (_ & Htr & Hsnd).
  split; [rewrite Htr | rewrite Hsnd]; vm_compute; reflexivity.
Defined.

(** ** Further properties: the action builder *)

Import Mocks Scenarios.

Lemma apiRequest_run (url options : value) :
  isString url = true ->
  options <> VNull ->
  apiRequest url options
  = ret (VObj (<["API" := VObj (<["payload" := VObj (builtPayload url options)]> ∅)]> ∅)).
Proof.
  intros Hurl Ho. unfold apiRequest, requireObjectCoercible, builtPayload.
  assert (nullish match options with VUndef => VObj ∅ | _ => options end = false) as Hn
      by (by destruct options).
  rewrite Hn, bind_ret, (getProp_prop _ _ Hn), bind_ret, Hurl.
  simpl negb. cbv iota. rewrite bind_ret.
  by destruct options.
Qed.

Lemma builtPayload_lookup (url options : value) (k : string) :
  builtPayload url options !! k
  = if decide (k = "type") then Some (prop options "type")
    else match ownProps options !! k with
         | Some v => Some v
         | None => if decide (k = "url") then Some url else None
         end.
Proof.
  unfold builtPayload. rewrite lookup_union, lookup_delete.
  case_decide as Hty.
  - subst k. rewrite decide_True by reflexivity. simpl.
    rewrite lookup_insert_ne by discriminate. by rewrite lookup_insert_eq.
  - rewrite decide_False by congruence.
    destruct (ownProps options !! k) as [v|]; simpl.
    + by destruct (_ !! k).
    + case_decide as Hu.
      * subst k. by rewrite lookup_insert_eq.
      * rewrite !lookup_insert_ne by congruence. by rewrite lookup_empty.
Qed.

Lemma taggedPayload_built (payload : gmap string value) :
  taggedPayload (VObj (<["API" := VObj (<["payload" := VObj payload]> ∅)]> ∅))
  = Some (VObj payload).
Proof.
  unfold taggedPayload, prop. simpl.
  rewrite lookup_insert_eq. simpl. by rewrite lookup_insert_eq.
Qed.

(** X1. For a string [url] and options that are not null, [apiRequest]
    returns, without any event, an action the interceptor recognises as
    tagged.  Its payload holds [type] (undefined when the options give
    none), every other field of the options unchanged ([onSuccess] and
    [onFailure] included), and [url] -- unless the options have a field
    [url] of their own, which then takes the place of the argument. *)
Theorem apiRequest_builds_tagged_action (url options : value) :
  isString url = true ->
  options <> VNull ->
  exists (action : value) (payload : gmap string value),
    apiRequest url options = ret action
    /\ taggedPayload action = Some (VObj payload)
    /\ (forall k,
          payload !! k
          = if decide (k = "type") then Some (prop options "type")
            else match ownProps options !! k with
                 | Some v => Some v
                 | None => if decide (k = "url") then Some url else None
                 end).
Proof.
  intros Hurl Ho. eexists _, (builtPayload url options).
  split; [by apply apiRequest_run|]. split.
  - apply taggedPayload_built.
  - apply builtPayload_lookup.
Qed.

Lemma apiRequest_builds_tagged_action_witness :
  exists (action : value) (payload : gmap string value),
    apiRequest (VStr "/url")
      (obj [("type", VStr "T"); ("url", VStr "/other"); ("method", VStr "PUT")]) = ret action
    /\ taggedPayload action = Some (VObj payload)
    /\ payload !! "type" = Some (VStr "T")
    /\ payload !! "url" = Some (VStr "/other")
    /\ payload !! "method" = Some (VStr "PUT")
    /\ payload !! "onSuccess" = None.
Proof.
  destruct (apiRequest_builds_tagged_action (VStr "/url")
              (obj [("type", VStr "T"); ("url", VStr "/other"); ("method", VStr "PUT")])
              eq_refl ltac:(discriminate)) as (action & payload & Hrun & Htag & Hk).
  exists action, payload. rewrite !Hk. repeat split; try assumption; vm_compute; reflexivity.
Defined.

(** ** Further properties: how a request can end *)

Section SendCases.
Variable fenv : string -> value -> list value -> completion value.

Lemma send_rejected (mw : middleware) (url o : value) (rq : string) (p e : value) :
  mw_request mw = VFun rq ->
  fenv rq VUndef [url; o] = Normal p ->
  isPromise p = true ->
  resolve p = Rejected e ->
  send fenv mw url o = ([Invoke (VFun rq) [url; o]], Normal (Rejected e)).
Proof.
  intros Hrq Hcall Hp Hres. unfold send, call, callMethod.
  rewrite Hrq, Hcall, bind_events. unfold promiseState.
  assert (nullish p = false) as -> by (by destruct p).
  by rewrite Hp, bind_ret, Hres.
Qed.

Lemma send_pending (mw : middleware) (url o : value) (rq : string) (p : value) :
  mw_request mw = VFun rq ->
  fenv rq VUndef [url; o] = Normal p ->
  isPromise p = true ->
  resolve p = Pending ->
  send fenv mw url o = ([Invoke (VFun rq) [url; o]], Normal Pending).
Proof.
  intros Hrq Hcall Hp Hres. unfold send, call, callMethod.
  rewrite Hrq, Hcall, bind_events. unfold promiseState.
  assert (nullish p = false) as -> by (by destruct p).
  by rewrite Hp, bind_ret, Hres.
Qed.

Lemma send_throwing (mw : middleware) (url o : value) (rq : string) (e : value) :
  mw_request mw = VFun rq ->
  fenv rq VUndef [url; o] = Throw e ->
  send fenv mw url o = ([Invoke (VFun rq) [url; o]], Throw e).
Proof.
  intros Hrq Hcall. unfold send, call, callMethod. by rewrite Hrq, Hcall.
Qed.

Lemma send_not_promise (mw : middleware) (url o : value) (rq : string) (p : value) :
  mw_request mw = VFun rq ->
  fenv rq VUndef [url; o] = Normal p ->
  isPromise p = false ->
  exists message,
    send fenv mw url o = ([Invoke (VFun rq) [url; o]], Throw (TypeError message)).
Proof.
  intros Hrq Hcall Hp. unfold send, call, callMethod.
  rewrite Hrq, Hcall, bind_events. unfold promiseState. rewrite Hp.
  destruct (nullish p); eexists; reflexivity.
Qed.

Lemma send_not_function (mw : middleware) (url o : value) :
  isFunction (mw_request mw) = false ->
  send fenv mw url o = throw (TypeError "not a function").
Proof.
  intros Hf. unfold send, call, callMethod. by destruct (mw_request mw).
Qed.

Lemma apiMiddleware_requests (mw : middleware) (next action payload : value) :
  nullish (mw_options mw) = false ->
  nullish (prop (VObj (mw_opts mw)) "actionTypes") = false ->
  isFunction (mw_request mw) = true ->
  taggedPayload action = Some payload ->
  exists tr,
    fst (apiMiddleware fenv mw next action)
    = whenTyped (prop payload "type") (startAction mw (prop payload "type"))
        ++ Invoke (mw_request mw) [prop payload "url"; VObj (mergedOptions mw payload)] :: tr.
Proof.
  intros Ho Hat Hfun Htag.
  rewrite (apiMiddleware_tagged fenv _ _ _ _ Htag),
    (handleRequest_start fenv _ _ _ _ _ _ Ho Hat), bind_events.
  fold (mergedOptions mw payload).
  destruct (send_invokes_request fenv mw (prop payload "url")
              (VObj (mergedOptions mw payload)) Hfun) as [tr Htr].
  match goal with |- context [fst (bind ?m ?k)] =>
    destruct (bind_prefix m k) as [tr' Htr'] end.
  exists (tr ++ tr'). cbv beta. by rewrite Htr', Htr.
Qed.

End SendCases.

(** X3. A Tagged Action is never handed to [next]: the run of the
    interceptor on it is the same whatever [next] is. *)
Theorem tagged_action_is_not_forwarded
  (fenv : string -> value -> list value -> completion value)
  (mw : middleware) (next next' action payload : value) :
  taggedPayload action = Some payload ->
  apiMiddleware fenv mw next action = apiMiddleware fenv mw next' action.
Proof.
  intros Htag. by rewrite !(apiMiddleware_tagged fenv _ _ _ _ Htag).
Qed.

Lemma tagged_action_is_not_forwarded_witness :
  apiMiddleware mocks (created (VFun "resolves")) (VFun "next")
    (tagged (obj [("url", VStr "/url")]))
  = apiMiddleware mocks (created (VFun "resolves")) (VFun "throws")
      (tagged (obj [("url", VStr "/url")])).
Proof.
  apply (tagged_action_is_not_forwarded mocks (created (VFun "resolves"))
           (VFun "next") (VFun "throws") (tagged (obj [("url", VStr "/url")]))
           (obj [("url", VStr "/url")])).
  vm_compute. reflexivity.
Defined.

(** X4. Any action that is not undefined or null and whose [API] is
    falsy (missing, null, false, 0, the empty string), an action that is
    not an object included (a thunk, a string), is handed to [next]; the
    interceptor returns what [next] returns and dispatches nothing. *)
Theorem falsy_API_passes_through
  (fenv : string -> value -> list value -> completion value)
  (mw : middleware) (next action : value) :
  nullish action = false ->
  toBoolean (prop action "API") = false ->
  apiMiddleware fenv mw next action = call fenv next [action]
  /\ dispatched (fst (apiMiddleware fenv mw next action)) = [].
Proof.
  intros Ha Hapi. rewrite (apiMiddleware_untagged fenv _ _ _ Ha Hapi).
  split; [reflexivity|]. unfold call, callMethod. by destruct next.
Qed.

Lemma falsy_API_passes_through_witness :
  (apiMiddleware mocks (created (VFun "resolves")) (VFun "next") (obj [("API", VNull)])
   = call mocks (VFun "next") [obj [("API", VNull)]]
   /\ dispatched (fst (apiMiddleware mocks (created (VFun "resolves")) (VFun "next")
                         (obj [("API", VNull)]))) = [])
  /\ (apiMiddleware mocks (created (VFun "resolves")) (VFun "next") (VFun "thunk")
      = call mocks (VFun "next") [VFun "thunk"]
      /\ dispatched (fst (apiMiddleware mocks (created (VFun "resolves")) (VFun "next")
                            (VFun "thunk"))) = []).
Proof.
  split.
  - apply (falsy_API_passes_through mocks (created (VFun "resolves")) (VFun "next")
             (obj [("API", VNull)])); vm_compute; reflexivity.
  - apply (falsy_API_passes_through mocks (created (VFun "resolves")) (VFun "next")
             (VFun "thunk")); vm_compute; reflexivity.
Defined.

(** X5. An action whose [API] is truthy but has no [payload] (or an
    undefined or null one) makes the interceptor throw a TypeError at
    once: nothing is dispatched, neither [next] nor the request function
    is called. *)
Theorem tagged_action_without_payload_throws
  (fenv : string -> value -> list value -> completion value)
  (mw : middleware) (next action : value) :
  nullish action = false ->
  toBoolean (prop action "API") = true ->
  nullish (prop (prop action "API") "payload") = true ->
  apiMiddleware fenv mw next action
  = throw (TypeError "cannot destructure undefined or null").
Proof.
  intros Ha Hapi Hp. unfold apiMiddleware.
  rewrite (getProp_prop _ _ Ha), bind_ret, Hapi. simpl negb. cbv iota.
  assert (nullish (prop action "API") = false) as Hn
      by (by destruct (prop action "API")).
  rewrite (getProp_prop _ _ Hn), bind_ret.
  unfold requireObjectCoercible. by rewrite Hp.
Qed.

Lemma tagged_action_without_payload_throws_witness :
  apiMiddleware mocks (created (VFun "resolves")) (VFun "next") (obj [("API", obj [])])
  = throw (TypeError "cannot destructure undefined or null").
Proof.
  apply (tagged_action_without_payload_throws mocks (created (VFun "resolves")) (VFun "next")
           (obj [("API", obj [])])); vm_compute; reflexivity.
Defined.

(** X2. Builder and interceptor composed: dispatching
    [apiRequest(url, options)] calls the request function, right after
    the start dispatch, with the url (the options' own [url] if they have
    one) and with options in which every field of [options] other than
    [type], [url], [onSuccess], [onFailure] has the value given there and
    every other key has the value of the configured [requestDefaults]. *)
Theorem built_action_reaches_request
  (fenv : string -> value -> list value -> completion value)
  (request config : value) (mw : middleware) (next url options : value) :
  createApiMiddleware request config = ret mw ->
  wellFormedConfig config = true ->
  isFunction request = true ->
  isString url = true ->
  options <> VNull ->
  exists (action : value) (merged : gmap string value) (tr : list event),
    apiRequest url options = ret action
    /\ fst (apiMiddleware fenv mw next action)
       = whenTyped (prop options "type") (startAction mw (prop options "type"))
           ++ Invoke request [default url (ownProps options !! "url"); VObj merged] :: tr
    /\ (forall k,
          merged !! k
          = if bool_decide (k ∈ ["type"; "url"; "onSuccess"; "onFailure"])
            then ownProps (prop config "requestDefaults") !! k
            else match ownProps options !! k with
                 | Some v => Some v
                 | None => ownProps (prop config "requestDefaults") !! k
                 end).
Proof.
  intros Hmw Hwf Hfun Hurl Ho.
  destruct (created_readable _ _ _ Hmw Hwf) as [Hro Hat].
  destruct (created_fields _ _ _ Hmw) as (_ & Hreq & _).
  set (action := VObj (<["API" := VObj (<["payload" := VObj (builtPayload url options)]> ∅)]> ∅)).
  destruct (apiMiddleware_requests fenv mw next action (VObj (builtPayload url options)))
    as [tr Htr]; [done|done|by rewrite Hreq|apply taggedPayload_built|].
  exists action, (mergedOptions mw (VObj (builtPayload url options))), tr.
  split; [by apply apiRequest_run|]. split.
  - rewrite Htr, Hreq. unfold prop at 1 2 3. simpl ownProps.
    rewrite !builtPayload_lookup. simpl.
    by destruct (ownProps options !! "url").
  - intros k. rewrite mergedOptions_lookup, restConfigOf_lookup,
      (created_requestDefaults _ _ _ Hmw).
    case_bool_decide as Hk; [reflexivity|]. simpl ownProps.
    rewrite builtPayload_lookup.
    assert (k <> "type" /\ k <> "url") as [Hk1 Hk2] by set_solver.
    rewrite !decide_False by done. by destruct (ownProps options !! k).
Qed.

Lemma built_action_reaches_request_witness :
  exists (action : value) (merged : gmap string value),
    apiRequest (VStr "/url") (obj [("type", VStr "T"); ("method", VStr "PUT")]) = ret action
    /\ In (Invoke (VFun "resolves") [VStr "/url"; VObj merged])
          (fst (apiMiddleware mocks
                  (Middleware (VFun "resolves")
                     (obj [("requestDefaults", obj [("method", VStr "GET"); ("mode", VStr "cors")])])
                     (Object_assign ∅
                        [VObj defaults;
                         obj [("requestDefaults",
                               obj [("method", VStr "GET"); ("mode", VStr "cors")])]]))
                  (VFun "next") action))
    /\ merged !! "method" = Some (VStr "PUT")
    /\ merged !! "mode" = Some (VStr "cors")
    /\ merged !! "type" = None.
Proof.
  destruct (built_action_reaches_request mocks (VFun "resolves")
              (obj [("requestDefaults", obj [("method", VStr "GET"); ("mode", VStr "cors")])])
              (Middleware (VFun "resolves")
                 (obj [("requestDefaults", obj [("method", VStr "GET"); ("mode", VStr "cors")])])
                 (Object_assign ∅
                    [VObj defaults;
                     obj [("requestDefaults",
                           obj [("method", VStr "GET"); ("mode", VStr "cors")])]]))
              (VFun "next") (VStr "/url") (obj [("type", VStr "T"); ("method", VStr "PUT")])
              eq_refl eq_refl eq_refl eq_refl ltac:(discriminate))
    as (action & merged & tr & Hrun & Htr & Hk).
  exists action, merged. rewrite !Hk. split; [exact Hrun|]. split.
  - rewrite Htr. right. left. reflexivity.
  - repeat split; vm_compute; reflexivity.
Defined.

(** X12. When the request function throws instead of returning, the
    interceptor throws the same value synchronously.  The start action
    (for a truthy [type]) has been dispatched by then and nothing
    follows it: no failure action, no end action, no call of
    [onFailure]. *)
Theorem throwing_request_leaves_start_open
  (fenv : string -> value -> list value -> completion value)
  (rq : string) (options : value) (mw : middleware) (next action payload e : value) :
  createApiMiddleware (VFun rq) options = ret mw ->
  wellFormedConfig options = true ->
  taggedPayload action = Some payload ->
  fenv rq VUndef [prop payload "url"; VObj (mergedOptions mw payload)] = Throw e ->
  apiMiddleware fenv mw next action
  = (whenTyped (prop payload "type") (startAction mw (prop payload "type"))
       ++ [Invoke (VFun rq) [prop payload "url"; VObj (mergedOptions mw payload)]],
     Throw e).
Proof.
  intros Hmw Hwf Htag Hcall.
  destruct (created_readable _ _ _ Hmw Hwf) as [Ho Hat].
  destruct (created_fields _ _ _ Hmw) as (_ & Hreq & _).
  rewrite (apiMiddleware_tagged fenv _ _ _ _ Htag).
  apply (handleRequest_throws fenv _ _ _ _ _ _ _ _ Ho Hat).
  by apply send_throwing.
Qed.

Lemma throwing_request_leaves_start_open_witness :
  apiMiddleware mocks (created (VFun "throws")) (VFun "next")
    (tagged (obj [("type", VStr "T"); ("url", VStr "/url"); ("onFailure", VFun "ok")]))
  = ([Dispatch (obj [("type", VStr "API_REQUEST_START"); ("payload", VStr "T")]);
      Invoke (VFun "throws") [VStr "/url"; VObj ∅]],
     Throw (VStr "boom")).
Proof.
  rewrite (throwing_request_leaves_start_open mocks "throws" VUndef (created (VFun "throws"))
             (VFun "next")
             (tagged (obj [("type", VStr "T"); ("url", VStr "/url"); ("onFailure", VFun "ok")]))
             (obj [("type", VStr "T"); ("url", VStr "/url"); ("onFailure", VFun "ok")])
             (VStr "boom") eq_refl eq_refl eq_refl eq_refl).
  vm_compute. reflexivity.
Defined.

(** X13. When the request function returns something that is not a
    promise (and has no [then] method), the interceptor throws a
    TypeError synchronously, after the start dispatch and the call of the
    request function; nothing else is dispatched. *)
Theorem request_without_promise_throws
  (fenv : string -> value -> list value -> completion value)
  (rq : string) (options : value) (mw : middleware) (next action payload p : value) :
  createApiMiddleware (VFun rq) options = ret mw ->
  wellFormedConfig options = true ->
  taggedPayload action = Some payload ->
  fenv rq VUndef [prop payload "url"; VObj (mergedOptions mw payload)] = Normal p ->
  isPromise p = false ->
  isFunction (prop p "then") = false ->
  exists message,
    apiMiddleware fenv mw next action
    = (whenTyped (prop payload "type") (startAction mw (prop payload "type"))
         ++ [Invoke (VFun rq) [prop payload "url"; VObj (mergedOptions mw payload)]],
       Throw (TypeError message)).
Proof.
  intros Hmw Hwf Htag Hcall Hp _.
  destruct (created_readable _ _ _ Hmw Hwf) as [Ho Hat].
  destruct (created_fields _ _ _ Hmw) as (_ & Hreq & _).
  destruct (send_not_promise fenv mw _ _ rq p Hreq Hcall Hp) as [message Hsend].
  exists message. rewrite (apiMiddleware_tagged fenv _ _ _ _ Htag).
  by apply (handleRequest_throws fenv _ _ _ _ _ _ _ _ Ho Hat).
Qed.

Lemma request_without_promise_throws_witness :
  exists message,
    apiMiddleware edgeMocks (created (VFun "plain")) (VFun "next")
      (tagged (obj [("type", VStr "T"); ("url", VStr "/url")]))
    = ([Dispatch (obj [("type", VStr "API_REQUEST_START"); ("payload", VStr "T")]);
        Invoke (VFun "plain") [VStr "/url"; VObj ∅]],
       Throw (TypeError message)).
Proof.
  destruct (request_without_promise_throws edgeMocks "plain" VUndef (created (VFun "plain"))
              (VFun "next") (tagged (obj [("type", VStr "T"); ("url", VStr "/url")]))
              (obj [("type", VStr "T"); ("url", VStr "/url")]) (VStr "not a promise")
              eq_refl eq_refl eq_refl eq_refl eq_refl eq_refl) as [message Hrun].
  exists message. rewrite Hrun. vm_compute. reflexivity.
Defined.

(** X14. The factory checks only that [request] is truthy: a truthy
    value that is not a function is accepted, and the interceptor then
    throws a TypeError on every Tagged Action, after the start dispatch
    (for a truthy [type]). *)
Theorem non_callable_request_fails_on_first_action
  (fenv : string -> value -> list value -> completion value)
  (request options next action payload : value) :
  toBoolean request = true ->
  isFunction request = false ->
  wellFormedConfig options = true ->
  taggedPayload action = Some payload ->
  exists mw,
    createApiMiddleware request options = ret mw
    /\ apiMiddleware fenv mw next action
       = (whenTyped (prop payload "type") (startAction mw (prop payload "type")),
          Throw (TypeError "not a function")).
Proof.
  intros Hreq Hfun Hwf Htag.
  assert (exists mw, createApiMiddleware request options = ret mw) as [mw Hmw].
  { unfold createApiMiddleware. rewrite Hreq. simpl. eauto. }
  exists mw. split; [exact Hmw|].
  destruct (created_readable _ _ _ Hmw Hwf) as [Ho Hat].
  destruct (created_fields _ _ _ Hmw) as (_ & Hrq & _).
  rewrite (apiMiddleware_tagged fenv _ _ _ _ Htag).
  rewrite (handleRequest_throws fenv _ _ _ _ _ _ [] (TypeError "not a function") Ho Hat).
  - by rewrite app_nil_r.
  - apply send_not_function. by rewrite Hrq.
Qed.

Lemma non_callable_request_fails_on_first_action_witness :
  exists mw,
    createApiMiddleware (obj [("get", VFun "resolves")]) VUndef = ret mw
    /\ apiMiddleware mocks mw (VFun "next")
         (tagged (obj [("type", VStr "T"); ("url", VStr "/url")]))
       = ([Dispatch (obj [("type", VStr "API_REQUEST_START"); ("payload", VStr "T")])],
          Throw (TypeError "not a function")).
Proof.
  destruct (non_callable_request_fails_on_first_action mocks (obj [("get", VFun "resolves")])
              VUndef (VFun "next") (tagged (obj [("type", VStr "T"); ("url", VStr "/url")]))
              (obj [("type", VStr "T"); ("url", VStr "/url")])
              eq_refl eq_refl eq_refl eq_refl) as (mw & Hmw & Hrun).
  exists mw. split; [exact Hmw|]. rewrite Hrun.
  apply created_fields in Hmw. destruct Hmw as (_ & _ & _ & Hopts).
  unfold startAction, label. rewrite Hopts. vm_compute. reflexivity.
Defined.

(** X15. With [null] as options the factory succeeds (the default [{}]
    stands in for undefined only) and the labels are the defaults, but
    the interceptor throws a TypeError on every Tagged Action when it
    reads [options.requestDefaults], after the start dispatch (for a
    truthy [type]). *)
Theorem null_options_fail_on_first_action
  (fenv : string -> value -> list value -> completion value)
  (request next action payload : value) :
  toBoolean request = true ->
  taggedPayload action = Some payload ->
  exists mw,
    createApiMiddleware request VNull = ret mw
    /\ apiMiddleware fenv mw next action
       = (whenTyped (prop payload "type")
            (VObj (<["type" := VStr "API_REQUEST_START"]>
                  (<["payload" := prop payload "type"]> ∅))),
          Throw (TypeError "cannot read properties of undefined or null")).
Proof.
  intros Hreq Htag.
  assert (createApiMiddleware request VNull
          = ret (Middleware request VNull (Object_assign ∅ [VObj defaults; VNull]))) as Hmw.
  { unfold createApiMiddleware. by rewrite Hreq. }
  eexists. split; [exact Hmw|].
  rewrite (apiMiddleware_tagged fenv _ _ _ _ Htag). unfold handleRequest, whenTyped.
  destruct (toBoolean (prop payload "type")).
  - rewrite actionType_label by reflexivity. rewrite bind_ret.
    unfold dispatch, emit. rewrite bind_events. reflexivity.
  - rewrite bind_ret. reflexivity.
Qed.

Lemma null_options_fail_on_first_action_witness :
  exists mw,
    createApiMiddleware (VFun "resolves") VNull = ret mw
    /\ apiMiddleware mocks mw (VFun "next")
         (tagged (obj [("type", VStr "T"); ("url", VStr "/url")]))
       = ([Dispatch (obj [("type", VStr "API_REQUEST_START"); ("payload", VStr "T")])],
          Throw (TypeError "cannot read properties of undefined or null")).
Proof.
  destruct (null_options_fail_on_first_action mocks (VFun "resolves") (VFun "next")
              (tagged (obj [("type", VStr "T"); ("url", VStr "/url")]))
              (obj [("type", VStr "T"); ("url", VStr "/url")])
              eq_refl eq_refl) as (mw & Hmw & Hrun).
  exists mw. split; [exact Hmw|]. rewrite Hrun. vm_compute. reflexivity.
Defined.

(** X10. When the response's [json] throws, or returns a promise
    that rejects, with [e], the request counts as failed with [e]: after
    the start action, the request and the call of [json] come the failure
    action for [e] (for a truthy [type]), the call of [onFailure] with
    [e] and the dispatch of what it returns (when callable), and the end
    action; [onSuccess] is not called.  The returned promise is fulfilled
    with undefined unless [onFailure] throws. *)
Theorem decoding_failure_is_a_request_failure
  (fenv : string -> value -> list value -> completion value)
  (rq j : string) (options : value) (mw : middleware)
  (next action payload p res e : value) :
  createApiMiddleware (VFun rq) options = ret mw ->
  wellFormedConfig options = true ->
  taggedPayload action = Some payload ->
  fenv rq VUndef [prop payload "url"; VObj (mergedOptions mw payload)] = Normal p ->
  isPromise p = true ->
  resolve p = Fulfilled res ->
  prop res "json" = VFun j ->
  settle (fenv j res []) = Rejected e ->
  let type := prop payload "type" in
  let onFailure := prop payload "onFailure" in
  apiMiddleware fenv mw next action
  = (whenTyped type (startAction mw type)
       ++ [Invoke (VFun rq) [prop payload "url"; VObj (mergedOptions mw payload)];
           Invoke (VFun j) []]
       ++ (whenTyped type (failureAction mw e) ++ continuationEvents fenv onFailure e)
       ++ whenTyped type (endAction mw type),
     Normal match continuationThrows fenv onFailure e with
            | Some x => VRejected x
            | None => VFulfilled VUndef
            end).
Proof.
  intros Hmw Hwf Htag Hcall Hp Hres Hj Hjson type onFailure.
  destruct (created_readable _ _ _ Hmw Hwf) as [Ho Hat].
  destruct (created_fields _ _ _ Hmw) as (_ & Hreq & _).
  pose proof (send_resolved fenv mw _ _ rq p res Hreq Hcall Hp Hres) as Hsend.
  assert (nullish res = false) as Hnn.
  { destruct res; try reflexivity; discriminate. }
  unfold normalize in Hsend. rewrite (getProp_prop _ _ Hnn), bind_ret, Hj in Hsend.
  simpl in Hsend. rewrite Hjson in Hsend.
  rewrite (apiMiddleware_tagged fenv _ _ _ _ Htag).
  by rewrite (handleRequest_rejected fenv _ _ _ _ _ _ _ _ Ho Hat Hsend).
Qed.

Lemma decoding_failure_is_a_request_failure_witness :
  apiMiddleware edgeMocks (created (VFun "fetchBad")) (VFun "next")
    (tagged (obj [("type", VStr "T"); ("url", VStr "/url");
                  ("onSuccess", VFun "onSuccess"); ("onFailure", VFun "ok")]))
  = ([Dispatch (obj [("type", VStr "API_REQUEST_START"); ("payload", VStr "T")]);
      Invoke (VFun "fetchBad") [VStr "/url"; VObj ∅];
      Invoke (VFun "jsonRejects") [];
      Dispatch (obj [("type", VStr "API_REQUEST_FAILURE"); ("payload", VStr "bad json");
                     ("error", VBool true)]);
      Invoke (VFun "ok") [VStr "bad json"];
      Dispatch (obj [("type", VStr "OK"); ("payload", VStr "bad json")]);
      Dispatch (obj [("type", VStr "API_REQUEST_END"); ("payload", VStr "T")])],
     Normal (VFulfilled VUndef)).
Proof.
  pose proof (decoding_failure_is_a_request_failure edgeMocks "fetchBad" "jsonRejects" VUndef
                (created (VFun "fetchBad")) (VFun "next")
                (tagged (obj [("type", VStr "T"); ("url", VStr "/url");
                              ("onSuccess", VFun "onSuccess"); ("onFailure", VFun "ok")]))
                (obj [("type", VStr "T"); ("url", VStr "/url");
                      ("onSuccess", VFun "onSuccess"); ("onFailure", VFun "ok")])
                (VFulfilled (VObj {["json" := VFun "jsonRejects"]}))
                (VObj {["json" := VFun "jsonRejects"]}) (VStr "bad json")
                eq_refl eq_refl eq_refl eq_refl eq_refl eq_refl eq_refl eq_refl) as Hrun.
  cbv zeta in Hrun. rewrite Hrun. vm_compute. reflexivity.
Defined.

(** X9. When the promise of the request rejects with [e], the whole
    run is: the start action, the call of the request function, the
    failure action for [e] (both lifecycle actions for a truthy [type]
    only), the call of [onFailure] with [e] and the dispatch of what it
    returns (when callable), and the end action.  The response is never
    probed for [json] and [onSuccess] is never called; the returned
    promise is fulfilled with undefined unless [onFailure] throws. *)
Theorem rejected_request_run
  (fenv : string -> value -> list value -> completion value)
  (rq : string) (options : value) (mw : middleware)
  (next action payload p e : value) :
  createApiMiddleware (VFun rq) options = ret mw ->
  wellFormedConfig options = true ->
  taggedPayload action = Some payload ->
  fenv rq VUndef [prop payload "url"; VObj (mergedOptions mw payload)] = Normal p ->
  isPromise p = true ->
  resolve p = Rejected e ->
  let type := prop payload "type" in
  let onFailure := prop payload "onFailure" in
  apiMiddleware fenv mw next action
  = (whenTyped type (startAction mw type)
       ++ [Invoke (VFun rq) [prop payload "url"; VObj (mergedOptions mw payload)]]
       ++ (whenTyped type (failureAction mw e) ++ continuationEvents fenv onFailure e)
       ++ whenTyped type (endAction mw type),
     Normal match continuationThrows fenv onFailure e with
            | Some x => VRejected x
            | None => VFulfilled VUndef
            end).
Proof.
  intros Hmw Hwf Htag Hcall Hp Hres type onFailure.
  destruct (created_readable _ _ _ Hmw Hwf) as [Ho Hat].
  destruct (created_fields _ _ _ Hmw) as (_ & Hreq & _).
  pose proof (send_rejected fenv mw _ _ rq p e Hreq Hcall Hp Hres) as Hsend.
  rewrite (apiMiddleware_tagged fenv _ _ _ _ Htag).
  by rewrite (handleRequest_rejected fenv _ _ _ _ _ _ _ _ Ho Hat Hsend).
Qed.

Lemma rejected_request_run_witness :
  apiMiddleware mocks (created (VFun "rejects")) (VFun "next")
    (tagged (obj [("type", VStr "T"); ("url", VStr "/url"); ("onSuccess", VFun "onSuccess")]))
  = ([Dispatch (obj [("type", VStr "API_REQUEST_START"); ("payload", VStr "T")]);
      Invoke (VFun "rejects") [VStr "/url"; VObj ∅];
      Dispatch (obj [("type", VStr "API_REQUEST_FAILURE"); ("payload", VStr "some response");
                     ("error", VBool true)]);
      Dispatch (obj [("type", VStr "API_REQUEST_END"); ("payload", VStr "T")])],
     Normal (VFulfilled VUndef)).
Proof.
  pose proof (rejected_request_run mocks "rejects" VUndef (created (VFun "rejects"))
                (VFun "next")
                (tagged (obj [("type", VStr "T"); ("url", VStr "/url");
                              ("onSuccess", VFun "onSuccess")]))
                (obj [("type", VStr "T"); ("url", VStr "/url"); ("onSuccess", VFun "onSuccess")])
                (VRejected (VStr "some response")) (VStr "some response")
                eq_refl eq_refl eq_refl eq_refl eq_refl eq_refl) as Hrun.
  cbv zeta in Hrun. rewrite Hrun. vm_compute. reflexivity.
Defined.

(** X11. While the promise of the request never settles, the run is
    the start action (for a truthy [type]) and the call of the request
    function: no continuation is called, no end action is dispatched, and
    the returned promise never settles. *)
Theorem pending_request_run
  (fenv : string -> value -> list value -> completion value)
  (rq : string) (options : value) (mw : middleware)
  (next action payload p : value) :
  createApiMiddleware (VFun rq) options = ret mw ->
  wellFormedConfig options = true ->
  taggedPayload action = Some payload ->
  fenv rq VUndef [prop payload "url"; VObj (mergedOptions mw payload)] = Normal p ->
  isPromise p = true ->
  resolve p = Pending ->
  apiMiddleware fenv mw next action
  = (whenTyped (prop payload "type") (startAction mw (prop payload "type"))
       ++ [Invoke (VFun rq) [prop payload "url"; VObj (mergedOptions mw payload)]],
     Normal VPending).
Proof.
  intros Hmw Hwf Htag Hcall Hp Hres.
  destruct (created_readable _ _ _ Hmw Hwf) as [Ho Hat].
  destruct (created_fields _ _ _ Hmw) as (_ & Hreq & _).
  pose proof (send_pending fenv mw _ _ rq p Hreq Hcall Hp Hres) as Hsend.
  rewrite (apiMiddleware_tagged fenv _ _ _ _ Htag).
  by rewrite (handleRequest_pending fenv _ _ _ _ _ _ _ Ho Hat Hsend).
Qed.

Lemma pending_request_run_witness :
  apiMiddleware edgeMocks (created (VFun "pending")) (VFun "next")
    (tagged (obj [("type", VStr "T"); ("url", VStr "/url"); ("onSuccess", VFun "ok")]))
  = ([Dispatch (obj [("type", VStr "API_REQUEST_START"); ("payload", VStr "T")]);
      Invoke (VFun "pending") [VStr "/url"; VObj ∅]],
     Normal VPending).
Proof.
  rewrite (pending_request_run edgeMocks "pending" VUndef (created (VFun "pending"))
             (VFun "next")
             (tagged (obj [("type", VStr "T"); ("url", VStr "/url"); ("onSuccess", VFun "ok")]))
             (obj [("type", VStr "T"); ("url", VStr "/url"); ("onSuccess", VFun "ok")])
             VPending eq_refl eq_refl eq_refl eq_refl eq_refl eq_refl).
  vm_compute. reflexivity.
Defined.

(** X16. When the request succeeds and [onSuccess] throws [x],
    the failure branch is not taken: no failure action is dispatched and
    [onFailure] is not called.  The end action is still dispatched, and
    the returned promise rejects with [x]. *)
Theorem throwing_onSuccess_is_not_a_request_failure
  (fenv : string -> value -> list value -> completion value)
  (request options : value) (mw : middleware) (next action payload : value)
  (ts : list event) (f : string) (r x : value) :
  createApiMiddleware request options = ret mw ->
  wellFormedConfig options = true ->
  taggedPayload action = Some payload ->
  outcome fenv mw payload = (ts, Normal (Fulfilled r)) ->
  prop payload "onSuccess" = VFun f ->
  fenv f VUndef [r] = Throw x ->
  apiMiddleware fenv mw next action
  = (whenTyped (prop payload "type") (startAction mw (prop payload "type"))
       ++ ts ++ [Invoke (VFun f) [r]]
       ++ whenTyped (prop payload "type") (endAction mw (prop payload "type")),
     Normal (VRejected x)).
Proof.
  intros Hmw Hwf Htag Hout HonS Hthrow.
  destruct (created_readable _ _ _ Hmw Hwf) as [Ho Hat].
  unfold outcome in Hout.
  rewrite (apiMiddleware_tagged fenv _ _ _ _ Htag).
  rewrite (handleRequest_fulfilled fenv _ _ _ _ _ _ _ _ Ho Hat Hout).
  unfold continuationEvents, continuationThrows. by rewrite HonS, Hthrow.
Qed.

Lemma throwing_onSuccess_is_not_a_request_failure_witness :
  apiMiddleware mocks (created (VFun "resolves")) (VFun "next")
    (tagged (obj [("type", VStr "T"); ("url", VStr "/url");
                  ("onSuccess", VFun "throws"); ("onFailure", VFun "ok")]))
  = ([Dispatch (obj [("type", VStr "API_REQUEST_START"); ("payload", VStr "T")]);
      Invoke (VFun "resolves") [VStr "/url"; VObj ∅];
      Invoke (VFun "throws") [VStr "some response"];
      Dispatch (obj [("type", VStr "API_REQUEST_END"); ("payload", VStr "T")])],
     Normal (VRejected (VStr "boom"))).
Proof.
  rewrite (throwing_onSuccess_is_not_a_request_failure mocks (VFun "resolves") VUndef
             (created (VFun "resolves")) (VFun "next")
             (tagged (obj [("type", VStr "T"); ("url", VStr "/url");
                           ("onSuccess", VFun "throws"); ("onFailure", VFun "ok")]))
             (obj [("type", VStr "T"); ("url", VStr "/url");
                   ("onSuccess", VFun "throws"); ("onFailure", VFun "ok")])
             [Invoke (VFun "resolves") [VStr "/url"; VObj ∅]]
             "throws" (VStr "some response") (VStr "boom")
             eq_refl eq_refl eq_refl eq_refl eq_refl eq_refl).
  vm_compute. reflexivity.
Defined.

(** X6. For a Tagged Action with a truthy [type], the start action
    is the first event of the run, whatever the request function is or
    does. *)
Theorem start_is_dispatched_first
  (fenv : string -> value -> list value -> completion value)
  (request options : value) (mw : middleware) (next action payload : value) :
  createApiMiddleware request options = ret mw ->
  wellFormedConfig options = true ->
  taggedPayload action = Some payload ->
  toBoolean (prop payload "type") = true ->
  exists tr,
    fst (apiMiddleware fenv mw next action)
    = Dispatch (startAction mw (prop payload "type")) :: tr.
Proof.
  intros Hmw Hwf Htag Hty.
  destruct (created_readable _ _ _ Hmw Hwf) as [Ho Hat].
  rewrite (apiMiddleware_tagged fenv _ _ _ _ Htag),
    (handleRequest_start fenv _ _ _ _ _ _ Ho Hat), bind_events.
  unfold whenTyped. rewrite Hty. simpl. eauto.
Qed.

Lemma start_is_dispatched_first_witness :
  exists tr,
    fst (apiMiddleware mocks (created (VFun "throws")) (VFun "next")
           (tagged (obj [("type", VStr "T"); ("url", VStr "/url")])))
    = Dispatch (obj [("type", VStr "API_REQUEST_START"); ("payload", VStr "T")]) :: tr.
Proof.
  destruct (start_is_dispatched_first mocks (VFun "throws") VUndef (created (VFun "throws"))
              (VFun "next") (tagged (obj [("type", VStr "T"); ("url", VStr "/url")]))
              (obj [("type", VStr "T"); ("url", VStr "/url")])
              eq_refl eq_refl eq_refl eq_refl) as [tr Htr].
  exists tr. rewrite Htr. f_equal.
Defined.

(** X7. For a Tagged Action with a truthy [type] whose request
    settles (fulfilled or rejected), the run begins with the start action
    and ends with the end action, whatever the continuations do (a
    continuation that throws included). *)
Theorem settled_request_is_bracketed
  (fenv : string -> value -> list value -> completion value)
  (request options : value) (mw : middleware) (next action payload : value)
  (ts : list event) (out : settlement) :
  createApiMiddleware request options = ret mw ->
  wellFormedConfig options = true ->
  taggedPayload action = Some payload ->
  toBoolean (prop payload "type") = true ->
  outcome fenv mw payload = (ts, Normal out) ->
  out <> Pending ->
  exists mid,
    fst (apiMiddleware fenv mw next action)
    = Dispatch (startAction mw (prop payload "type"))
        :: mid ++ [Dispatch (endAction mw (prop payload "type"))].
Proof.
  intros Hmw Hwf Htag Hty Hout Hsettled.
  destruct (created_readable _ _ _ Hmw Hwf) as [Ho Hat].
  unfold outcome in Hout.
  rewrite (apiMiddleware_tagged fenv _ _ _ _ Htag).
  destruct out as [r|e|]; [| |done].
  - rewrite (handleRequest_fulfilled fenv _ _ _ _ _ _ _ _ Ho Hat Hout).
    unfold whenTyped. rewrite Hty. simpl.
    eexists (ts ++ _). by rewrite <- app_assoc.
  - rewrite (handleRequest_rejected fenv _ _ _ _ _ _ _ _ Ho Hat Hout).
    unfold whenTyped. rewrite Hty. simpl.
    eexists (ts ++ _ :: _). by rewrite <- app_assoc.
Qed.

Lemma settled_request_is_bracketed_witness :
  exists mid,
    fst (apiMiddleware mocks (created (VFun "rejects")) (VFun "next")
           (tagged (obj [("type", VStr "T"); ("url", VStr "/url");
                         ("onFailure", VFun "throws")])))
    = Dispatch (obj [("type", VStr "API_REQUEST_START"); ("payload", VStr "T")])
        :: mid ++ [Dispatch (obj [("type", VStr "API_REQUEST_END"); ("payload", VStr "T")])].
Proof.
  destruct (settled_request_is_bracketed mocks (VFun "rejects") VUndef
              (created (VFun "rejects")) (VFun "next")
              (tagged (obj [("type", VStr "T"); ("url", VStr "/url");
                            ("onFailure", VFun "throws")]))
              (obj [("type", VStr "T"); ("url", VStr "/url"); ("onFailure", VFun "throws")])
              [Invoke (VFun "rejects") [VStr "/url"; VObj ∅]]
              (Rejected (VStr "some response"))
              eq_refl eq_refl eq_refl eq_refl eq_refl ltac:(discriminate)) as [mid Hmid].
  exists mid. rewrite Hmid. reflexivity.
Defined.

(** X8. For a Tagged Action with a falsy [type], the only action
    dispatched is the one the continuation returned: [onFailure]'s when
    the request fails, [onSuccess]'s when it succeeds, none when that
    continuation is not callable or throws, or while the request never
    settles. *)
Theorem untyped_request_dispatches_continuation_only
  (fenv : string -> value -> list value -> completion value)
  (request options : value) (mw : middleware) (next action payload : value)
  (ts : list event) (out : settlement) :
  createApiMiddleware request options = ret mw ->
  wellFormedConfig options = true ->
  taggedPayload action = Some payload ->
  toBoolean (prop payload "type") = false ->
  outcome fenv mw payload = (ts, Normal out) ->
  dispatched (fst (apiMiddleware fenv mw next action))
  = match out with
    | Rejected e => continuationAction fenv (prop payload "onFailure") e
    | Fulfilled r => continuationAction fenv (prop payload "onSuccess") r
    | Pending => []
    end.
Proof.
  intros Hmw Hwf Htag Hty Hout.
  destruct (created_readable _ _ _ Hmw Hwf) as [Ho Hat].
  pose proof (send_dispatches_nothing fenv mw (prop payload "url")
                (VObj (mergedOptions mw payload))) as Hts.
  unfold outcome in Hout. rewrite Hout in Hts. simpl in Hts.
  rewrite (apiMiddleware_tagged fenv _ _ _ _ Htag).
  destruct out as [r|e|].
  - rewrite (handleRequest_fulfilled fenv _ _ _ _ _ _ _ _ Ho Hat Hout). simpl fst.
    unfold whenTyped. rewrite Hty. simpl.
    by rewrite dispatched_app, Hts, app_nil_r, dispatched_continuation.
  - rewrite (handleRequest_rejected fenv _ _ _ _ _ _ _ _ Ho Hat Hout). simpl fst.
    unfold whenTyped. rewrite Hty. simpl.
    by rewrite dispatched_app, Hts, app_nil_r, dispatched_continuation.
  - rewrite (handleRequest_pending fenv _ _ _ _ _ _ _ Ho Hat Hout). simpl fst.
    unfold whenTyped. rewrite Hty. simpl. exact Hts.
Qed.

Lemma untyped_request_dispatches_continuation_only_witness :
  dispatched (fst (apiMiddleware mocks (created (VFun "rejects")) (VFun "next")
                     (tagged (obj [("url", VStr "/url"); ("onFailure", VFun "ok")]))))
  = [obj [("type", VStr "OK"); ("payload", VStr "some response")]].
Proof.
  rewrite (untyped_request_dispatches_continuation_only mocks (VFun "rejects") VUndef
             (created (VFun "rejects")) (VFun "next")
             (tagged (obj [("url", VStr "/url"); ("onFailure", VFun "ok")]))
             (obj [("url", VStr "/url"); ("onFailure", VFun "ok")])
             [Invoke (VFun "rejects") [VStr "/url"; VObj ∅]]
             (Rejected (VStr "some response"))
             eq_refl eq_refl eq_refl eq_refl eq_refl).
  vm_compute. reflexivity.
Defined.

(** ** Further properties: the configuration *)

(** X17. A configuration without a field [actionTypes] (no options at
    all, or options that give only [requestDefaults]) leaves the three
    labels at their defaults. *)
Theorem labels_default_without_actionTypes (request options : value) (mw : middleware) :
  createApiMiddleware request options = ret mw ->
  ownProps options !! "actionTypes" = None ->
  label mw "start" = VStr "API_REQUEST_START"
  /\ label mw "end" = VStr "API_REQUEST_END"
  /\ label mw "failure" = VStr "API_REQUEST_FAILURE".
Proof.
  intros (_ & _ & _ & Hopts)%created_fields Hnone.
  assert (prop (VObj (mw_opts mw)) "actionTypes" = prop (VObj defaults) "actionTypes") as Hat.
  { unfold prop. rewrite Hopts. simpl.
    rewrite lookup_union, (right_id_L ∅ (∪)).
    assert (ownProps match options with VUndef => VObj ∅ | _ => options end !! "actionTypes"
            = None) as -> by (by destruct options).
    reflexivity. }
  unfold label. rewrite Hat. repeat split; reflexivity.
Qed.

Lemma labels_default_without_actionTypes_witness :
  label (Middleware (VFun "resolves")
           (obj [("requestDefaults", obj [("mode", VStr "cors")])])
           (Object_assign ∅ [VObj defaults;
                             obj [("requestDefaults", obj [("mode", VStr "cors")])]]))
        "start" = VStr "API_REQUEST_START"
  /\ label (Middleware (VFun "resolves")
              (obj [("requestDefaults", obj [("mode", VStr "cors")])])
              (Object_assign ∅ [VObj defaults;
                                obj [("requestDefaults", obj [("mode", VStr "cors")])]]))
           "end" = VStr "API_REQUEST_END"
  /\ label (Middleware (VFun "resolves")
              (obj [("requestDefaults", obj [("mode", VStr "cors")])])
              (Object_assign ∅ [VObj defaults;
                                obj [("requestDefaults", obj [("mode", VStr "cors")])]]))
           "failure" = VStr "API_REQUEST_FAILURE".
Proof.
  apply (labels_default_without_actionTypes (VFun "resolves")
           (obj [("requestDefaults", obj [("mode", VStr "cors")])])); vm_compute; reflexivity.
Defined.




